(** * Confusion-matrix calculator: label normalisation and model evaluation

    A shallow embedding of [src/model_evaluation.py] ([normalize_label] and
    [evaluate_model]) together with the properties the specification states
    about them.

    Modelling conventions.
    - A Python [str] is a [string]; a character is a code point below 256
      (the Latin-1 range of Python's text), so [lower] and [strip] are the
      restrictions of [str.lower] and [str.strip] to that range.
    - A cell of a table read by [pd.read_csv], and more generally a scalar
      handed to [normalize_label], is a [pyval].
    - A [DataFrame] is an ordered list of named columns.
    - Python exceptions are values of [exn]; code that can raise lives in the
      monad [M].
    - A float of the metric stage is the rational it stands for ([Q]):
      [k # 1000] is the float nearest to [k/1000].  Which way the float
      arithmetic rounds a value that lies exactly between two decimals is
      not decided by the rational; it is left open ([Rounding]). *)

From Stdlib Require Import String Ascii List ZArith QArith Qround Qabs.
From Stdlib Require Import Bool Lia Lqa.
From Stdlib Require Import DecimalString DecimalPos.
Import ListNotations.

Local Open Scope string_scope.
Local Open Scope list_scope.

(* ================================================================== *)
(** ** Python text *)

Module PyStr.

(** Code point of a character. *)
Definition ord (c : ascii) : N := N_of_ascii c.

(** [str.lower] on one code point below 256: 'A'..'Z' and the Latin-1
    capitals U+00C0..U+00DE (U+00D7, the multiplication sign, apart) move
    up by 32; every other code point is its own lower case. *)
Definition lower_char (c : ascii) : ascii :=
  let n := ord c in
  if ((65 <=? n) && (n <=? 90))%N
     || ((192 <=? n) && (n <=? 222) && negb (n =? 215))%N
  then ascii_of_N (n + 32)
  else c.

Fixpoint lower (s : string) : string :=
  match s with
  | EmptyString => EmptyString
  | String c r => String (lower_char c) (lower r)
  end.

(** The code points below 256 that [str.strip] removes: TAB, LF, VT, FF,
    CR, the separators U+001C..U+001F, the space, U+0085 and U+00A0. *)
Definition is_space (c : ascii) : bool :=
  let n := ord c in
  (((9 <=? n) && (n <=? 13)) || ((28 <=? n) && (n <=? 32))
   || (n =? 133) || (n =? 160))%N.

Fixpoint lstrip (s : string) : string :=
  match s with
  | EmptyString => EmptyString
  | String c r => if is_space c then lstrip r else s
  end.

Fixpoint rstrip (s : string) : string :=
  match s with
  | EmptyString => EmptyString
  | String c r =>
      match rstrip r with
      | EmptyString => if is_space c then EmptyString else String c EmptyString
      | r' => String c r'
      end
  end.

(** [s.strip()] *)
Definition strip (s : string) : string := rstrip (lstrip s).

(** [s.startswith(p)] *)
Fixpoint starts_with (p s : string) : bool :=
  match p with
  | EmptyString => true
  | String a p' =>
      match s with
      | EmptyString => false
      | String b s' => Ascii.eqb a b && starts_with p' s'
      end
  end.

(** What [lstrip] leaves: a text that does not start with a space. *)
Definition starts_solid (s : string) : Prop :=
  match s with
  | EmptyString => True
  | String c _ => is_space c = false
  end.

(** [needle in hay] for two strings. *)
Fixpoint contains (needle hay : string) : bool :=
  starts_with needle hay
  || match hay with
     | EmptyString => false
     | String _ r => contains needle r
     end.

(** [s in l] for a list of strings. *)
Definition in_list (s : string) (l : list string) : bool :=
  existsb (String.eqb s) l.

(** [str(n)] for an integer. *)
Definition str_int (z : Z) : string := NilZero.string_of_int (Z.to_int z).

End PyStr.
Import PyStr.

(* ================================================================== *)
(** ** Python values *)

(** The scalars a cell can hold: [None], the float NaN, a string, an
    integer, a float that is not NaN (carried as the text [str] gives for
    it) and a boolean. *)
Inductive pyval : Type :=
| PNone
| PNaN
| PStr (s : string)
| PInt (z : Z)
| PFloat (repr : string)
| PBool (b : bool).

(** [pd.isna(v)] for a scalar. *)
Definition isna (v : pyval) : bool :=
  match v with
  | PNone | PNaN => true
  | _ => false
  end.

(** [v == s] for a string [s]. *)
Definition eq_str (v : pyval) (s : string) : bool :=
  match v with
  | PStr t => String.eqb t s
  | _ => false
  end.

(** [str(v)] *)
Definition str (v : pyval) : string :=
  match v with
  | PNone => "None"
  | PNaN => "nan"
  | PStr s => s
  | PInt z => str_int z
  | PFloat r => r
  | PBool true => "True"
  | PBool false => "False"
  end.

(* ================================================================== *)
(** ** [normalize_label] *)

(** The literal spellings of line 18. *)
Definition unsafe_literals : list string :=
  ["0"; "1 (unsafe)"; "0 (unsafe)"; "unsafe (0)"; "unsafe (1)"].

(** The guard of line 8: [pd.isna(label) or label == ''] *)
Definition is_missing (label : pyval) : bool :=
  isna label || eq_str label "".

(** Line 11: [str(label).lower().strip()] *)
Definition label_str (label : pyval) : string := strip (lower (str label)).

Definition normalize_label (label : pyval) : pyval :=
  if is_missing label then label
  else
    let label_str := label_str label in
    if contains "safe" label_str && negb (contains "unsafe" label_str)
    then PStr "safe"
    else if contains "unsafe" label_str || in_list label_str unsafe_literals
    then PStr "unsafe"
    else PStr label_str.

(* ================================================================== *)
(** ** Exceptions *)

(** The exceptions the evaluation can meet; all of them are instances of
    Python's [Exception]. *)
Inductive exn : Type :=
| ReadError (msg : string)          (* whatever [pd.read_csv] raised *)
| KeyError (missing : list string)  (* [df[...]] on absent column names *)
| AttributeError                    (* [.str] on a column that is not text *)
| ZeroDivisionError
| ValueError.                       (* [str] of an integer beyond the limit *)

(** A computation that returns a value or raises. *)
Definition M (A : Type) : Type := (exn + A)%type.

Definition ret {A} (a : A) : M A := inr a.
Definition raise {A} (e : exn) : M A := inl e.
Definition bind {A B} (m : M A) (k : A -> M B) : M B :=
  match m with
  | inl e => inl e
  | inr a => k a
  end.

Notation "x <- m ;; k" := (bind m (fun x => k))
  (at level 61, m at next level, right associativity).

(* ================================================================== *)
(** ** Data frames *)

Definition Series : Type := list pyval.

(** A frame is its columns in order, each with its name. *)
Definition DataFrame : Type := list (string * Series).

(** [df.columns] *)
Definition df_columns (df : DataFrame) : list string := map fst df.

(** [len(df)]: the number of rows. *)
Definition len (df : DataFrame) : nat :=
  match df with
  | [] => 0
  | (_, s) :: _ => length s
  end.

(** Every column of a frame has one cell per row. *)
Definition wf_frame (df : DataFrame) : Prop :=
  Forall (fun col => length (snd col) = len df) df.

(** [df.empty]: no column or no row. *)
Definition empty (df : DataFrame) : bool :=
  (length df =? 0)%nat || (len df =? 0)%nat.

Fixpoint lookup (df : DataFrame) (c : string) : option Series :=
  match df with
  | [] => None
  | (c', s) :: rest => if String.eqb c' c then Some s else lookup rest c
  end.

(** [df[c]] *)
Definition getitem (df : DataFrame) (c : string) : M Series :=
  match lookup df c with
  | Some s => ret s
  | None => raise (KeyError [c])
  end.

Definition has_column (df : DataFrame) (c : string) : bool :=
  match lookup df c with
  | Some _ => true
  | None => false
  end.

(** [df[[c1, c2, ...]]]: the listed columns, or [KeyError] naming the
    absent ones. *)
Definition getitems (df : DataFrame) (cs : list string) : M DataFrame :=
  match filter (fun c => negb (has_column df c)) cs with
  | [] => ret (map (fun c => (c, match lookup df c with
                                 | Some s => s
                                 | None => []
                                 end)) cs)
  | missing => raise (KeyError missing)
  end.

(** [df[c] = s]: replaces the column of that name or appends a new one. *)
Fixpoint setitem (df : DataFrame) (c : string) (s : Series) : DataFrame :=
  match df with
  | [] => [(c, s)]
  | (c', s') :: rest =>
      if String.eqb c' c then (c, s) :: rest
      else (c', s') :: setitem rest c s
  end.

(** The cells of a column picked by a boolean mask. *)
Fixpoint select_values {A} (mask : list bool) (s : list A) : list A :=
  match mask, s with
  | b :: m, v :: r => if b then v :: select_values m r else select_values m r
  | _, _ => []
  end.

(** [df[mask]] *)
Definition select (mask : list bool) (df : DataFrame) : DataFrame :=
  map (fun col => (fst col, select_values mask (snd col))) df.

(** [a & b] on two masks. *)
Definition band (a b : list bool) : list bool :=
  map (fun xy => fst xy && snd xy) (combine a b).

(** [s == text] and [s != text], cell by cell. *)
Definition eq_series (s : Series) (text : string) : list bool :=
  map (fun v => eq_str v text) s.
Definition ne_series (s : Series) (text : string) : list bool :=
  map (fun v => negb (eq_str v text)) s.

Definition bool_to_Z (b : bool) : Z := if b then 1 else 0.

(** [sum(mask)] and [mask.sum()]: the number of [True]. *)
Definition sum (mask : list bool) : Z :=
  fold_left (fun acc b => acc + bool_to_Z b)%Z mask 0%Z.

(** [df.isna().sum().sum()] *)
Definition isna_sum_sum (df : DataFrame) : Z :=
  fold_left (fun acc col => acc + sum (map isna (snd col)))%Z df 0%Z.

(** The dtype [pd.read_csv] gives a column: [object] when the table has
    no row or the column holds text, else a float, integer or boolean
    dtype. *)
Inductive dtype : Type := object_ | float64 | int64 | bool_.

Definition is_text (v : pyval) : bool :=
  match v with
  | PStr _ | PNone => true
  | _ => false
  end.

Definition is_float (v : pyval) : bool :=
  match v with
  | PFloat _ | PNaN => true
  | _ => false
  end.

Definition is_int (v : pyval) : bool :=
  match v with
  | PInt _ => true
  | _ => false
  end.

Definition dtype_of (s : Series) : dtype :=
  match s with
  | [] => object_
  | _ => if existsb is_text s then object_
         else if existsb is_float s then float64
         else if existsb is_int s then int64
         else bool_
  end.

(** [s.str]: the string accessor, refused on a column that is not of
    dtype [object]. *)
Definition str_accessor (s : Series) : M Series :=
  match dtype_of s with
  | object_ => ret s
  | _ => raise AttributeError
  end.

(** [s.str.lower()]: cells that are not strings become missing. *)
Definition str_lower (s : Series) : Series :=
  map (fun v => match v with
                | PStr t => PStr (lower t)
                | _ => PNaN
                end) s.

(** [df.dropna(subset=cs)]: keeps the rows with no missing cell in the
    columns [cs]. *)
Fixpoint notna_mask (df : DataFrame) (cs : list string) (n : nat)
  : M (list bool) :=
  match cs with
  | [] => ret (repeat true n)
  | c :: rest =>
      s <- getitem df c ;;
      m <- notna_mask df rest n ;;
      ret (band (map (fun v => negb (isna v)) s) m)
  end.

Definition dropna (df : DataFrame) (subset : list string) : M DataFrame :=
  m <- notna_mask df subset (len df) ;;
  ret (select m df).

(* ================================================================== *)
(** ** Metrics *)

(** A metric of the result: the string ["N/A"] or a number. *)
Inductive metric : Type :=
| NA
| Num (x : Q).

(** [a / b] on two counts. *)
Definition truediv (a b : Z) : M Q :=
  if (b =? 0)%Z then raise ZeroDivisionError
  else ret (inject_Z a / inject_Z b)%Q.

(** [x / y] on two numbers. *)
Definition div (x y : Q) : M Q :=
  if Qeq_bool y 0 then raise ZeroDivisionError
  else ret (x / y)%Q.

(** The code divides and rounds binary floats.  The float of a ratio of
    two counts lies within a few units of the sixteenth digit of the
    ratio, so [round(x, 3)] gives the thousandth nearest to the ratio
    whenever there is only one (for any table of fewer than 10^12 rows).
    When the ratio lies exactly between two thousandths, the float is
    slightly above it, slightly below it or exactly there, and the
    neighbour that [round] picks follows the float and the rounding
    routine (Python's or NumPy's): [tie_up y] tells whether the value
    [y], a whole number and a half, goes up.  Nothing is assumed of
    it. *)
Class Rounding : Type := { tie_up : Q -> bool }.

Section MetricStage.

Context {rounding : Rounding}.

(** An integer nearest to [x]; on a tie, the neighbour that [tie_up]
    names. *)
Definition round_nearest (x : Q) : Z :=
  let f := Qfloor x in
  match ((x - inject_Z f) ?= (1 # 2))%Q with
  | Lt => f
  | Gt => (f + 1)%Z
  | Eq => if tie_up x then (f + 1)%Z else f
  end.

(** [round(x, 3)] *)
Definition round3 (x : Q) : Q :=
  Qmake (round_nearest (x * 1000)) 1000.

(** [y] is [x] rounded to 3 decimal digits: a whole number of
    thousandths, at most half a thousandth away from [x]. *)
Definition rounded_to_3_digits (x y : Q) : Prop :=
  exists k : Z, y = (k # 1000) /\ Qabs (y - x) <= (1 # 2000).

(** [isinstance(m, str)] *)
Definition is_str (m : metric) : bool :=
  match m with
  | NA => true
  | Num _ => false
  end.

(** [m == 0] *)
Definition eq_zero (m : metric) : bool :=
  match m with
  | NA => false
  | Num x => Qeq_bool x 0
  end.

(** A metric that is a number is not negative. *)
Definition nonneg_metric (m : metric) : Prop :=
  match m with
  | NA => True
  | Num x => (0 <= x)%Q
  end.

(** Lines 72, 75, 78 and 81 share one shape:
    [round(num / den, 3) if den > 0 else "N/A"]. *)
Definition guarded_ratio (num den : Z) : M metric :=
  if (den >? 0)%Z then
    x <- truediv num den ;;
    ret (Num (round3 x))
  else ret NA.

(** Lines 84 to 87.  The code computes [2 * (ppv * recall) / (ppv +
    recall)] in floats, within a few units of the sixteenth digit of the
    rational; for two metrics of [k] and [k'] thousandths a rational of
    that form is either exactly between two thousandths or at least
    1/4000 of a thousandth away from there, so that [round] gives the
    thousandth nearest to the rational, and on a tie the one that
    [tie_up] names. *)
Definition f1_of (ppv recall : metric) : M metric :=
  if is_str ppv || is_str recall || eq_zero ppv || eq_zero recall
  then ret NA
  else
    match ppv, recall with
    | Num p, Num r =>
        x <- div (2 * (p * r)) (p + r) ;;
        ret (Num (round3 x))
    | _, _ => ret NA
    end.

(* ================================================================== *)
(** ** [evaluate_model] *)

(** The dictionary of lines 96 to 108. *)
Record results : Type := {
  category : string;
  columns : list string;
  total_samples : Z;
  empty_cells : Z;
  rows_removed : Z;
  accuracy : metric;
  confusion_matrix : list (list string);
  precision_ppv : metric;
  npv : metric;
  recall : metric;
  f1_score : metric
}.

(** The value under the key ["error"]: a message of the code's own, or
    [str(e)] for a caught exception [e]. *)
Inductive error_text : Type :=
| Message (s : string)
| StrOf (e : exn).

(** What [evaluate_model] returns: [{"error": ...}] or the results. *)
Inductive returned : Type :=
| ErrorDict (msg : error_text)
| ResultsDict (r : results).

(** Lines 39 and 40. *)
Definition count_empty_cells (df : DataFrame)
    (prediction_column truth_column : string) : M Z :=
  sub <- getitems df [prediction_column; truth_column] ;;
  let empty_cells := isna_sum_sum sub in
  pred <- getitem df prediction_column ;;
  truth <- getitem df truth_column ;;
  ret (empty_cells + sum (eq_series pred "") + sum (eq_series truth ""))%Z.

(** The message of line 51. *)
Definition no_data_found (category_name : string) : error_text :=
  Message ("No data found for category '" ++ category_name ++ "'.")%string.

(** The columns whose name contains "category", line 43. *)
Definition category_columns (df : DataFrame) : list string :=
  filter (fun col => contains "category" (lower col)) (df_columns df).

(** Lines 42 to 51: the frame to evaluate, or the dictionary returned at
    line 45 or 51. *)
Definition filter_category (df : DataFrame) (category_name : string)
  : M (returned + DataFrame) :=
  if negb (String.eqb (lower category_name) "total") then
    let category_columns := category_columns df in
    match category_columns with
    | [] => ret (inl (ErrorDict (Message "Category column not found.")))
    | category_col :: _ =>
        col <- getitem df category_col ;;
        text <- str_accessor col ;;
        let df := select (eq_series (str_lower text) (lower category_name)) df in
        if empty df
        then ret (inl (ErrorDict (no_data_found category_name)))
        else ret (inr df)
    end
  else ret (inr df).

(** Lines 53 and 54. *)
Definition add_normalized (df : DataFrame)
    (prediction_column truth_column : string) : M DataFrame :=
  pred <- getitem df prediction_column ;;
  let df := setitem df "normalized_pred" (map normalize_label pred) in
  truth <- getitem df truth_column ;;
  ret (setitem df "normalized_truth" (map normalize_label truth)).

(** Lines 57 and 58. *)
Definition drop_incomplete (df : DataFrame) : M DataFrame :=
  df <- dropna df ["normalized_pred"; "normalized_truth"] ;;
  pred <- getitem df "normalized_pred" ;;
  truth <- getitem df "normalized_truth" ;;
  ret (select (band (ne_series pred "") (ne_series truth "")) df).

(** The shape of lines 63 to 66:
    [sum((df['normalized_pred'] == p) & (df['normalized_truth'] == t))]. *)
Definition tally (df : DataFrame) (p t : string) : M Z :=
  pred <- getitem df "normalized_pred" ;;
  truth <- getitem df "normalized_truth" ;;
  ret (sum (band (eq_series pred p) (eq_series truth t))).

(** Lines 53 to 110, on the frame left by the category filter. *)
Definition evaluate_frame (columns : list string) (empty_cells : Z)
    (df : DataFrame) (category_name prediction_column truth_column : string)
  : M returned :=
  df <- add_normalized df prediction_column truth_column ;;
  let original_count := Z.of_nat (len df) in
  df <- drop_incomplete df ;;
  let filtered_count := Z.of_nat (len df) in
  let rows_removed := (original_count - filtered_count)%Z in
  true_positives <- tally df "unsafe" "unsafe" ;;
  true_negatives <- tally df "safe" "safe" ;;
  false_positives <- tally df "unsafe" "safe" ;;
  false_negatives <- tally df "safe" "unsafe" ;;
  let total :=
    (true_positives + true_negatives + false_positives + false_negatives)%Z in
  accuracy <- guarded_ratio (true_positives + true_negatives) total ;;
  ppv <- guarded_ratio true_positives (true_positives + false_positives) ;;
  npv <- guarded_ratio true_negatives (true_negatives + false_negatives) ;;
  recall <- guarded_ratio true_positives (true_positives + false_negatives) ;;
  f1_score <- f1_of ppv recall ;;
  let confusion_matrix :=
    [ [""; "Predicted Unsafe"; "Predicted Safe"];
      ["Actual Unsafe"; ("TP: " ++ str_int true_positives)%string;
                        ("FN: " ++ str_int false_negatives)%string];
      ["Actual Safe"; ("FP: " ++ str_int false_positives)%string;
                      ("TN: " ++ str_int true_negatives)%string] ] in
  ret (ResultsDict {|
    category := category_name;
    columns := columns;
    total_samples := total;
    empty_cells := empty_cells;
    rows_removed := rows_removed;
    accuracy := accuracy;
    confusion_matrix := confusion_matrix;
    precision_ppv := ppv;
    npv := npv;
    recall := recall;
    f1_score := f1_score |}).

(** What lines 72 to 81 give when nothing raises. *)
Definition ratio_metric (num den : Z) : metric :=
  if (den >? 0)%Z
  then Num (round3 (inject_Z num / inject_Z den))
  else NA.

(** What lines 84 to 87 give when nothing raises. *)
Definition f1_metric (ppv recall : metric) : metric :=
  match ppv, recall with
  | Num p, Num r =>
      if Qeq_bool p 0 || Qeq_bool r 0 then NA
      else Num (round3 (2 * (p * r) / (p + r)))
  | _, _ => NA
  end.

(** The results dictionary in terms of the counts. *)
Definition report (category_name : string) (columns : list string)
    (empty_cells original_count filtered_count tp tn fp fn : Z) : results :=
  let ppv := ratio_metric tp (tp + fp) in
  let recall := ratio_metric tp (tp + fn) in
  {| category := category_name;
     columns := columns;
     total_samples := (tp + tn + fp + fn)%Z;
     empty_cells := empty_cells;
     rows_removed := (original_count - filtered_count)%Z;
     accuracy := ratio_metric (tp + tn) (tp + tn + fp + fn);
     confusion_matrix :=
       [ [""; "Predicted Unsafe"; "Predicted Safe"];
         ["Actual Unsafe"; ("TP: " ++ str_int tp)%string;
                           ("FN: " ++ str_int fn)%string];
         ["Actual Safe"; ("FP: " ++ str_int fp)%string;
                         ("TN: " ++ str_int tn)%string] ];
     precision_ppv := ppv;
     npv := ratio_metric tn (tn + fn);
     recall := recall;
     f1_score := f1_metric ppv recall |}.

(** The rows whose normalised prediction is [p] and normalised truth is
    [t]: the count that lines 63 to 66 take. *)
Definition count_rows (p t : string) (rows : list (pyval * pyval)) : Z :=
  sum (map (fun pt => eq_str (fst pt) p && eq_str (snd pt) t) rows).

(** The error at which the evaluation of a frame stops, if any: an absent
    prediction or truth column; then, for a category other than "total",
    no category column, a category column that is not text, or no row of
    that category. *)
Definition stops_with (df : DataFrame)
    (category_name prediction_column truth_column : string)
  : option error_text :=
  match filter (fun c => negb (has_column df c))
               [prediction_column; truth_column] with
  | m :: ms => Some (StrOf (KeyError (m :: ms)))
  | [] =>
      if String.eqb (lower category_name) "total" then None
      else
        match category_columns df with
        | [] => Some (Message "Category column not found.")
        | c :: _ =>
            match lookup df c with
            | None => None
            | Some col =>
                match dtype_of col with
                | object_ =>
                    if existsb (fun v => eq_str v (lower category_name))
                               (str_lower col)
                    then None
                    else Some (no_data_found category_name)
                | _ => Some (StrOf AttributeError)
                end
            end
        end
  end.

(** The rows that lines 57 and 58 keep: both normalised cells present. *)
Definition complete_row (pt : pyval * pyval) : bool :=
  negb (is_missing (fst pt)) && negb (is_missing (snd pt)).

(** The body of the [try] block, lines 35 to 110; [csv] is what
    [pd.read_csv(csv_file)] did: it raised, or it returned a frame. *)
Definition evaluate_body (csv : M DataFrame)
    (category_name prediction_column truth_column : string) : M returned :=
  df <- csv ;;
  let columns := df_columns df in
  empty_cells <- count_empty_cells df prediction_column truth_column ;;
  filtered <- filter_category df category_name ;;
  match filtered with
  | inl early => ret early
  | inr df =>
      evaluate_frame columns empty_cells df
        category_name prediction_column truth_column
  end.

(** [try: ... except Exception as e: return {"error": str(e)}] *)
Definition evaluate_model (csv : M DataFrame)
    (category_name prediction_column truth_column : string) : returned :=
  match evaluate_body csv category_name prediction_column truth_column with
  | inl e => ErrorDict (StrOf e)
  | inr r => r
  end.

End MetricStage.

(** Two tie rules, for the sample runs: every tie down, every tie up. *)
Definition ties_down : Rounding := {| tie_up := fun _ => false |}.
Definition ties_up_all : Rounding := {| tie_up := fun _ => true |}.

(* ================================================================== *)
(** ** [normalize_label], with what can raise in it *)

(** CPython refuses to convert to text an integer of more than
    [sys.int_info.default_max_str_digits] digits. *)
Definition max_str_digits : Z := 4300.

(** [str(v)], raising [ValueError] beyond that limit.  For every other
    scalar [str] returns. *)
Definition str_py (v : pyval) : M string :=
  match v with
  | PInt z =>
      if (Z.abs z <? 10 ^ max_str_digits)%Z then ret (str_int z)
      else raise ValueError
  | _ => ret (str v)
  end.

(** Lines 5 to 21 once more, in the monad of the code that can raise:
    [pd.isna], [==], [lower], [strip] and [in] return on every scalar;
    [str] is the one call that can raise.  [normalize_label] above is
    what this function returns when it returns. *)
Definition normalize_label_py (label : pyval) : M pyval :=
  if is_missing label then ret label
  else
    text <- str_py label ;;
    let label_str := strip (lower text) in
    if contains "safe" label_str && negb (contains "unsafe" label_str)
    then ret (PStr "safe")
    else if contains "unsafe" label_str || in_list label_str unsafe_literals
    then ret (PStr "unsafe")
    else ret (PStr label_str).

(** The values a cell of a table holds: an integer cell is a 64-bit
    integer, signed or unsigned ([pd.read_csv] reads a longer numeral as
    a float or as text). *)
Definition table_cell (v : pyval) : Prop :=
  match v with
  | PInt z => (- 2 ^ 63 <= z < 2 ^ 64)%Z
  | _ => True
  end.

(** The values whose text [str] gives: every scalar but an integer of
    more than [max_str_digits] digits. *)
Definition within_str_limit (v : pyval) : Prop :=
  match v with
  | PInt z => (Z.abs z < 10 ^ max_str_digits)%Z
  | _ => True
  end.

(* ================================================================== *)
(** ** The labels of the specification *)

(** The specification speaks of four labels. *)
Inductive Label : Type :=
| Safe
| Unsafe
| Missing
| Other (s : string).

(** The Python value by which [normalize_label] stands for a label:
    the strings ['safe'] and ['unsafe'], an unrecognised text itself, and,
    for a missing input, that input handed back. *)
Definition value_of (raw : pyval) (l : Label) : pyval :=
  match l with
  | Safe => PStr "safe"
  | Unsafe => PStr "unsafe"
  | Missing => raw
  | Other s => PStr s
  end.

(** The tests of lines 14 and 18 in the words of the specification, on
    the trimmed lower-cased text [s]: "[s] contains safe and does not
    contain unsafe", and "[s] contains unsafe, or is one of the literal
    spellings". *)
Definition safe_test (s : string) : Prop :=
  contains "safe" s = true /\ contains "unsafe" s = false.
Definition unsafe_test (s : string) : Prop :=
  contains "unsafe" s = true \/ In s unsafe_literals.

(** A normalised cell that is neither ['safe'] nor ['unsafe']. *)
Definition is_other (v : pyval) : bool :=
  negb (eq_str v "safe") && negb (eq_str v "unsafe").

(** The rows of two normalised columns in which at least one side is
    neither ['safe'] nor ['unsafe']. *)
Definition other_rows (pred truth : Series) : Z :=
  sum (map (fun pt => is_other (fst pt) || is_other (snd pt))
           (combine pred truth)).

(* ================================================================== *)
(** ** Sample runs *)

Definition sample_frame : DataFrame :=
  [ ("Category", [PStr "Hate"; PStr "hate"; PStr "Spam"; PStr "Spam";
                  PStr "hate"; PStr "Spam"; PStr "HATE"]);
    ("pred",  [PStr "Unsafe"; PStr "safe"; PStr "unsafe"; PStr "Safe";
               PStr "maybe"; PStr ""; PStr "unsafe"]);
    ("truth", [PStr "unsafe"; PStr "SAFE"; PStr "safe"; PStr "unsafe";
               PStr "safe"; PStr "safe"; PStr "0"]) ].

(** What the evaluation of [sample_frame] over all its rows returns. *)
Definition sample_results : results :=
  Eval vm_compute in
    match evaluate_model (rounding := ties_down)
            (inr sample_frame) "total" "pred" "truth" with
    | ResultsDict r => r
    | ErrorDict _ => report (rounding := ties_down) "" [] 0 0 0 0 0 0 0
    end.

(** A table whose category column holds numbers. *)
Definition numeric_category_frame : DataFrame :=
  [ ("category", [PInt 1; PInt 2]);
    ("pred", [PStr "safe"; PStr "unsafe"]);
    ("truth", [PStr "safe"; PStr "unsafe"]) ].

(** A table in which every prediction is the empty string. *)
Definition empty_predictions : DataFrame :=
  [ ("pred", [PStr ""; PStr ""; PStr ""]);
    ("truth", [PStr "safe"; PStr "unsafe"; PStr "safe"]) ].

(** Two rows, none predicted unsafe: TN = 1, FN = 1. *)
Definition mixed_frame : DataFrame :=
  [ ("pred",  [PStr "safe"; PStr "safe"]);
    ("truth", [PStr "safe"; PStr "unsafe"]) ].

Definition mixed_results : results :=
  Eval vm_compute in
    match evaluate_model (rounding := ties_down)
            (inr mixed_frame) "total" "pred" "truth" with
    | ResultsDict r => r
    | ErrorDict _ => report (rounding := ties_down) "" [] 0 0 0 0 0 0 0
    end.

(** Eighty rows with TN = 1 and FP = 79: the accuracy 1/80 lies exactly
    between 0.012 and 0.013. *)
Definition tie_frame : DataFrame :=
  [ ("pred",  PStr "safe" :: repeat (PStr "unsafe") 79);
    ("truth", repeat (PStr "safe") 80) ].

(** Eleven rows with TP = 1, FP = 2 and FN = 8: precision 0.333, recall
    0.111, and 2*0.333*0.111/0.444 lies exactly between 0.166 and
    0.167. *)
Definition f1_tie_frame : DataFrame :=
  [ ("pred",  PStr "unsafe" :: repeat (PStr "unsafe") 2
              ++ repeat (PStr "safe") 8);
    ("truth", PStr "unsafe" :: repeat (PStr "safe") 2
              ++ repeat (PStr "unsafe") 8) ].

Definition spec_scenario : DataFrame :=
  [ ("pred",  [PStr "unsafe"; PStr "safe"; PStr "unsafe"; PStr "safe"]);
    ("truth", [PStr "unsafe"; PStr "safe"; PStr "safe"; PStr "unsafe"]) ].

(* ================================================================== *)
(** ** Characters of a decimal numeral *)

(** A decimal digit, or the minus sign that [str] puts before a negative
    integer. *)
Definition numeral_char (c : ascii) : bool :=
  let n := ord c in
  (((48 <=? n) && (n <=? 57)) || (n =? 45))%N.

(** Every character of [s] passes the test [p]. *)
Fixpoint all_chars (p : ascii -> bool) (s : string) : bool :=
  match s with
  | EmptyString => true
  | String c r => p c && all_chars p r
  end.

(* ================================================================== *)
(** ** Cells and metrics, for the further properties *)

(** A cell with no label in it: [None], NaN, or a value whose text is
    empty once lower-cased and trimmed (the empty string, white space). *)
Definition blank (v : pyval) : bool :=
  is_missing v || String.eqb (label_str v) "".

(** A metric that is a number lies between 0 and 1. *)
Definition in_unit_interval (m : metric) : Prop :=
  match m with
  | NA => True
  | Num x => (0 <= x /\ x <= 1)%Q
  end.

(* ================================================================== *)
(** ** The categories that [main] lists (main.py) *)

(** [a == b] on two cells that are not NaN. *)
Definition pyval_eqb (a b : pyval) : bool :=
  match a, b with
  | PNone, PNone => true
  | PNaN, PNaN => true
  | PStr s, PStr t => String.eqb s t
  | PInt x, PInt y => (x =? y)%Z
  | PFloat x, PFloat y => String.eqb x y
  | PBool x, PBool y => Bool.eqb x y
  | _, _ => false
  end.

(** [s.dropna()] *)
Definition series_dropna (s : Series) : Series :=
  filter (fun v => negb (isna v)) s.

(** [s.unique()]: the values in the order of their first occurrence. *)
Fixpoint unique_from (seen : list pyval) (s : Series) : Series :=
  match s with
  | [] => []
  | v :: rest =>
      if existsb (pyval_eqb v) seen then unique_from seen rest
      else v :: unique_from (v :: seen) rest
  end.

Definition unique (s : Series) : Series := unique_from [] s.

(** main.py, lines 15 to 19: the categories offered to the user, when
    the table has a category column. *)
Definition available_categories (df : DataFrame) : M (option Series) :=
  let category_columns := category_columns df in
  match category_columns with
  | [] => ret None
  | category_col :: _ =>
      col <- getitem df category_col ;;
      ret (Some (unique (series_dropna col)))
  end.

(** A row with its two cells exchanged. *)
Definition swap_row (pt : pyval * pyval) : pyval * pyval :=
  (snd pt, fst pt).

(* ================================================================== *)
(** ** [format_metric] *)

(** [s.rstrip(ch)] for a single character [ch]. *)
Fixpoint rstrip_char (ch : ascii) (s : string) : string :=
  match s with
  | EmptyString => EmptyString
  | String c r =>
      match rstrip_char ch r with
      | EmptyString => if Ascii.eqb c ch then EmptyString
                       else String c EmptyString
      | r' => String c r'
      end
  end.

(** The character of the decimal digit [d], [0 <= d <= 9]. *)
Definition digit_char (d : Z) : ascii := ascii_of_N (48 + Z.to_N d).

(** What is left of the two decimals [d1 d2] once the zeros at the end,
    then a point at the end, are stripped. *)
Definition decimals (d1 d2 : Z) : string :=
  if negb (d2 =? 0)%Z
  then String "." (String (digit_char d1) (String (digit_char d2) ""))
  else if negb (d1 =? 0)%Z then String "." (String (digit_char d1) "")
  else "".

Section Format.

(** The float formatter rounds to the nearest hundredth.  A rational that
    lies exactly between two hundredths stands for a float that is
    slightly above, slightly below or exactly there, and the formatter
    follows the float: [ties_up x] tells whether it rounds up then.
    This is the model of the formatting of a metric that
    [evaluate_model] returned, a whole number [k] of thousandths: the
    float nearest to [k/1000] is formatted as is, and its float product
    by 100 is within a few units of the fifteenth digit of [k/10], a
    whole number of tenths, so that its two decimals are those of
    [k/10].  The formatting of other floats is not modelled. *)
Variable ties_up : Q -> bool.

(** The number of hundredths in [x], [0 <= x], rounded to the nearest. *)
Definition hundredths (x : Q) : Z :=
  let y := (x * 100)%Q in
  let f := Qfloor y in
  match ((y - inject_Z f) ?= (1 # 2))%Q with
  | Lt => f
  | Gt => (f + 1)%Z
  | Eq => if ties_up x then (f + 1)%Z else f
  end.

(** [f"{x:.2f}"] *)
Definition format_2f (x : Q) : string :=
  let c := hundredths (Qabs x) in
  ((if Qle_bool 0 x then "" else "-")
   ++ str_int (c / 100)
   ++ String "." (String (digit_char (c mod 100 / 10))
                         (String (digit_char (c mod 10)) "")))%string.

(** Lines 115 to 121, for a metric that [evaluate_model] returned. *)
Definition format_metric (metric : metric) (as_percent : bool) : string :=
  match metric with
  | Num x =>
      if as_percent
      then (rstrip_char "." (rstrip_char "0" (format_2f (x * 100)))
            ++ "%")%string
      else rstrip_char "." (rstrip_char "0" (format_2f x))
  | NA => "N/A"
  end.

End Format.

(* ================================================================== *)
(** ** More sample runs *)

(** What the evaluation of [sample_frame] returns for the category
    "hate". *)
Definition sample_category_results : results :=
  Eval vm_compute in
    match evaluate_model (rounding := ties_down)
            (inr sample_frame) "hate" "pred" "truth" with
    | ResultsDict r => r
    | ErrorDict _ => report (rounding := ties_down) "" [] 0 0 0 0 0 0 0
    end.

(** A table whose truth column has the name that line 53 writes to. *)
Definition collision_frame : DataFrame :=
  [ ("pred", [PStr "unsafe"; PStr "safe"; PStr "unsafe"; PStr " "]);
    ("normalized_pred", [PStr "safe"; PStr "safe"; PStr "safe";
                         PStr "safe"]) ].

Definition collision_results : results :=
  Eval vm_compute in
    match evaluate_model (rounding := ties_down)
            (inr collision_frame) "total" "pred" "normalized_pred" with
    | ResultsDict r => r
    | ErrorDict _ => report (rounding := ties_down) "" [] 0 0 0 0 0 0 0
    end.

(* ================================================================== *)
(** * Properties *)

(** A run of [x <- m ;; k] that returned went through a [m] that
    returned. *)
Ltac bind_inv H :=
  match type of H with
  | bind ?m _ = inr _ =>
      let E := fresh "E" in
      destruct m eqn:E; [discriminate H | cbn [bind] in H]
  end.

(** ** Sample runs of [normalize_label] *)

Example normalize_Safe : normalize_label (PStr "Safe") = PStr "safe".
Proof. reflexivity. Qed.

Example normalize_UNSAFE : normalize_label (PStr " UNSAFE ") = PStr "unsafe".
Proof. reflexivity. Qed.

Example normalize_zero : normalize_label (PInt 0) = PStr "unsafe".
Proof. reflexivity. Qed.

Example normalize_one : normalize_label (PInt 1) = PStr "1".
Proof. reflexivity. Qed.

Example normalize_benign : normalize_label (PStr "Benign") = PStr "benign".
Proof. reflexivity. Qed.

Example normalize_float : normalize_label (PFloat "0.0") = PStr "0.0".
Proof. reflexivity. Qed.

Example normalize_blank : normalize_label (PStr "  ") = PStr "".
Proof. reflexivity. Qed.

(** ** Text: [lower] and [strip] *)

Section Text.

Local Ltac by_cases_on c :=
  destruct c as [[] [] [] [] [] [] [] []]; reflexivity.

Lemma lower_char_idem (c : ascii) : lower_char (lower_char c) = lower_char c.
Proof. by_cases_on c. Qed.

Lemma is_space_lower_char (c : ascii) : is_space (lower_char c) = is_space c.
Proof. by_cases_on c. Qed.

Lemma lower_idem (s : string) : lower (lower s) = lower s.
Proof.
  induction s as [|c r IH]; simpl; [reflexivity|].
  now rewrite lower_char_idem, IH.
Qed.

Lemma lower_lstrip (s : string) : lower (lstrip s) = lstrip (lower s).
Proof.
  induction s as [|c r IH]; simpl; [reflexivity|].
  rewrite is_space_lower_char.
  destruct (is_space c); [exact IH | reflexivity].
Qed.

Lemma lower_rstrip (s : string) : lower (rstrip s) = rstrip (lower s).
Proof.
  induction s as [|c r IH]; simpl; [reflexivity|].
  rewrite <- IH, is_space_lower_char.
  destruct (rstrip r); simpl; [destruct (is_space c)|]; reflexivity.
Qed.

Lemma lower_strip (s : string) : lower (strip s) = strip (lower s).
Proof. unfold strip. now rewrite lower_rstrip, lower_lstrip. Qed.

Lemma rstrip_idem (s : string) : rstrip (rstrip s) = rstrip s.
Proof.
  induction s as [|c r IH]; simpl; [reflexivity|].
  destruct (rstrip r) as [|c' r'] eqn:E.
  - destruct (is_space c) eqn:Ec; simpl; [reflexivity|].
    now rewrite Ec.
  - simpl in *. now rewrite IH.
Qed.

Lemma lstrip_starts_solid (s : string) : starts_solid (lstrip s).
Proof.
  induction s as [|c r IH]; simpl; [exact I|].
  destruct (is_space c) eqn:Ec; [exact IH | exact Ec].
Qed.

Lemma rstrip_starts_solid (s : string) :
  starts_solid s -> starts_solid (rstrip s).
Proof.
  destruct s as [|c r]; simpl; [trivial|].
  intros Hc. destruct (rstrip r); [rewrite Hc|]; exact Hc.
Qed.

Lemma lstrip_solid (s : string) : starts_solid s -> lstrip s = s.
Proof.
  destruct s as [|c r]; simpl; [reflexivity|].
  now intros ->.
Qed.

Lemma strip_idem (s : string) : strip (strip s) = strip s.
Proof.
  unfold strip.
  rewrite (lstrip_solid (rstrip (lstrip s))).
  - apply rstrip_idem.
  - apply rstrip_starts_solid, lstrip_starts_solid.
Qed.

(** Lower-casing and trimming a text that already went through both
    changes nothing. *)
Lemma strip_lower_fix (s : string) :
  strip (lower (strip (lower s))) = strip (lower s).
Proof. now rewrite lower_strip, lower_idem, strip_idem. Qed.

Lemma in_list_In (s : string) (l : list string) :
  in_list s l = true <-> In s l.
Proof.
  unfold in_list. rewrite existsb_exists. split.
  - intros (x & Hx & E). apply String.eqb_eq in E. now subst.
  - intros H. exists s. split; [exact H | apply String.eqb_refl].
Qed.

(** A text that contains "unsafe" contains "safe". *)
Lemma contains_unsafe_safe (s : string) :
  contains "unsafe" s = true -> contains "safe" s = true.
Proof.
  induction s as [|c r IH]; [discriminate|].
  intros H. cbn [contains] in H. apply orb_true_iff in H as [H|H].
  - destruct r as [|c1 [|c2 r2]]; simpl in H;
      try (rewrite ?andb_false_r in H; discriminate).
    apply andb_true_iff in H as [_ H].
    apply andb_true_iff in H as [_ H].
    change (contains "safe" (String c (String c1 (String c2 r2))))
      with (starts_with "safe" (String c (String c1 (String c2 r2)))
            || (starts_with "safe" (String c1 (String c2 r2))
                || contains "safe" (String c2 r2))).
    cbn [contains]. simpl. rewrite H. simpl.
    now rewrite !orb_true_r.
  - cbn [contains]. apply orb_true_iff. right. now apply IH.
Qed.

End Text.

(* ================================================================== *)
(** ** The normaliser *)

Section Normalizer.

Lemma safe_test_bool (s : string) :
  contains "safe" s && negb (contains "unsafe" s) = true <-> safe_test s.
Proof.
  unfold safe_test. rewrite andb_true_iff, negb_true_iff. reflexivity.
Qed.

Lemma unsafe_test_bool (s : string) :
  contains "unsafe" s || in_list s unsafe_literals = true <-> unsafe_test s.
Proof.
  unfold unsafe_test. rewrite orb_true_iff, in_list_In. reflexivity.
Qed.

Lemma is_missing_cases (raw : pyval) :
  is_missing raw = true <-> raw = PNone \/ raw = PNaN \/ raw = PStr "".
Proof.
  split.
  - destruct raw as [| |s| | |]; simpl; try discriminate; auto.
    unfold is_missing; simpl. intros E. apply String.eqb_eq in E.
    subst. auto.
  - intros [->|[->| ->]]; reflexivity.
Qed.

(** C1. An input that is neither missing nor the empty string is
    lower-cased and trimmed to a text [s]; the result is Safe when [s]
    contains "safe" and not "unsafe"; failing that it is Unsafe when [s]
    contains "unsafe" or is one of "0", "1 (unsafe)", "0 (unsafe)",
    "unsafe (0)", "unsafe (1)"; failing both it is Other(s), the text [s]
    itself. *)
Theorem normalize_label_cases (raw : pyval) :
  is_missing raw = false ->
  let s := strip (lower (str raw)) in
  (safe_test s -> normalize_label raw = value_of raw Safe)
  /\ (~ safe_test s -> unsafe_test s ->
      normalize_label raw = value_of raw Unsafe)
  /\ (~ safe_test s -> ~ unsafe_test s ->
      normalize_label raw = value_of raw (Other s)).
Proof.
  intros Hm s. unfold normalize_label. rewrite Hm.
  fold (label_str raw). change (label_str raw) with s.
  destruct (contains "safe" s && negb (contains "unsafe" s)) eqn:E1.
  - apply safe_test_bool in E1. repeat split; intros; tauto.
  - assert (N1 : ~ safe_test s)
      by (rewrite <- safe_test_bool, E1; discriminate).
    destruct (contains "unsafe" s || in_list s unsafe_literals) eqn:E2.
    + apply unsafe_test_bool in E2. repeat split; intros; tauto.
    + assert (N2 : ~ unsafe_test s)
        by (rewrite <- unsafe_test_bool, E2; discriminate).
      repeat split; intros; tauto.
Qed.

Lemma normalize_label_cases_witness :
  normalize_label (PStr " Safe ") = PStr "safe"
  /\ normalize_label (PInt 0) = PStr "unsafe"
  /\ normalize_label (PStr "Benign ") = PStr "benign".
Proof.
  split; [|split].
  - apply (proj1 (normalize_label_cases (PStr " Safe ") eq_refl)).
    split; reflexivity.
  - apply (proj1 (proj2 (normalize_label_cases (PInt 0) eq_refl))).
    + intros [H _]; discriminate H.
    + right. simpl. auto.
  - apply (proj2 (proj2 (normalize_label_cases (PStr "Benign ") eq_refl))).
    + intros [H _]; discriminate H.
    + intros [H|H]; [discriminate H|].
      simpl in H. repeat destruct H as [H|H]; try discriminate H.
      exact H.
Defined.

(** C5. A missing input, that is [None], NaN or the empty string, comes
    back as the Missing label: the input itself, which the guard of line 8
    recognises as missing. *)
Theorem normalize_label_missing (raw : pyval) :
  raw = PNone \/ raw = PNaN \/ raw = PStr "" ->
  normalize_label raw = value_of raw Missing
  /\ is_missing (normalize_label raw) = true.
Proof.
  intros H. apply is_missing_cases in H.
  unfold normalize_label. rewrite H. simpl. auto.
Qed.

Lemma normalize_label_missing_witness :
  (normalize_label (PStr "") = PStr "" /\ normalize_label PNone = PNone)
  /\ normalize_label PNaN = PNaN.
Proof.
  split; [split|].
  - apply (normalize_label_missing (PStr "")). auto.
  - apply (normalize_label_missing PNone). auto.
  - apply (normalize_label_missing PNaN). auto.
Defined.

(** What [normalize_label] gives stands for exactly one label, which is
    Missing exactly for the missing inputs; an Other text never contains
    "safe", so that no Other text is taken for Safe or Unsafe. *)
Lemma normalize_label_total (raw : pyval) :
  exists! l : Label,
    normalize_label raw = value_of raw l
    /\ (l = Missing <-> is_missing raw = true)
    /\ (forall s, l = Other s -> contains "safe" s = false).
Proof.
  assert (Hsafe : forall s, PStr s = PStr "safe" -> contains "safe" s = true)
    by (intros s [= ->]; reflexivity).
  assert (Hunsafe : forall s, PStr s = PStr "unsafe" ->
                              contains "safe" s = true)
    by (intros s [= ->]; reflexivity).
  assert (Huniq : forall v l l',
            v = value_of raw l -> v = value_of raw l' ->
            l <> Missing -> l' <> Missing ->
            (forall s, l = Other s -> contains "safe" s = false) ->
            (forall s, l' = Other s -> contains "safe" s = false) ->
            l = l').
  { intros v l l' E E' N N' O O'. rewrite E in E'. clear E.
    destruct l as [| | |s], l' as [| | |s']; simpl in E';
      try reflexivity; try congruence.
    - symmetry in E'. apply Hsafe in E'. rewrite (O' s' eq_refl) in E'.
      discriminate.
    - symmetry in E'. apply Hunsafe in E'. rewrite (O' s' eq_refl) in E'.
      discriminate.
    - apply Hsafe in E'. rewrite (O s eq_refl) in E'. discriminate.
    - apply Hunsafe in E'. rewrite (O s eq_refl) in E'. discriminate. }
  destruct (is_missing raw) eqn:Hm.
  - exists Missing. split.
    + unfold normalize_label. rewrite Hm.
      split; [reflexivity|]. split; [tauto | discriminate].
    + intros l' (_ & [_ H] & _). symmetry. now apply H.
  - assert (Hex : exists l : Label,
              normalize_label raw = value_of raw l
              /\ l <> Missing
              /\ (forall s, l = Other s -> contains "safe" s = false)).
    { unfold normalize_label. rewrite Hm.
      set (s := label_str raw).
      destruct (contains "safe" s && negb (contains "unsafe" s)) eqn:E1;
        [exists Safe; repeat split; discriminate|].
      destruct (contains "unsafe" s || in_list s unsafe_literals) eqn:E2;
        [exists Unsafe; repeat split; discriminate|].
      exists (Other s). split; [reflexivity|]. split; [discriminate|].
      intros s' [= <-].
      apply orb_false_iff in E2 as [E2 _].
      rewrite E2 in E1. simpl in E1. now rewrite andb_true_r in E1. }
    destruct Hex as (l & E & N & O).
    exists l. split.
    + split; [exact E|]. split; [|exact O].
      split; [contradiction | discriminate].
    + intros l' (E' & [H' _] & O').
      apply (Huniq (normalize_label raw)); try assumption.
      intros X. apply H' in X. discriminate.
Qed.

(** The text of a value within the limit of [str] is converted. *)
Lemma str_py_returns (raw : pyval) :
  within_str_limit raw -> str_py raw = inr (str raw).
Proof.
  destruct raw as [| |s|z|r|b]; try reflexivity.
  unfold within_str_limit, str_py. intros H.
  apply Z.ltb_lt in H. now rewrite H.
Qed.

(** A cell of a table is within the limit of [str]. *)
Lemma table_cell_within_str_limit (raw : pyval) :
  table_cell raw -> within_str_limit raw.
Proof.
  destruct raw as [| |s|z|r|b]; try (intros; exact I).
  unfold table_cell, within_str_limit.
  assert (B : (2 ^ 64 < 10 ^ max_str_digits)%Z)
    by (apply Z.ltb_lt; vm_compute; reflexivity).
  assert (B63 : (2 ^ 63 < 2 ^ 64)%Z) by reflexivity.
  generalize dependent (10 ^ max_str_digits)%Z.
  generalize dependent (2 ^ 64)%Z. generalize dependent (2 ^ 63)%Z.
  intros; lia.
Qed.

(** Within the limit of [str] no call of lines 5 to 21 raises, and the
    function returns what [normalize_label] computes. *)
Lemma normalize_label_py_returns (raw : pyval) :
  within_str_limit raw ->
  normalize_label_py raw = inr (normalize_label raw).
Proof.
  intros H. unfold normalize_label_py, normalize_label.
  destruct (is_missing raw); [reflexivity|].
  rewrite (str_py_returns raw H). cbn [bind]. unfold label_str.
  destruct (_ && _); [reflexivity|].
  destruct (_ || _); reflexivity.
Qed.

(** C9. On every value that a cell of a table can hold, [normalize_label]
    raises no exception and returns one value, which stands for a label:
    Missing exactly for a missing input.  The function reads nothing but
    its argument, so that its result is a function of it; the only call
    of lines 5 to 21 that can raise is [str], on an integer of more than
    4300 digits, which no cell is. *)
Theorem normalize_label_never_raises (raw : pyval) :
  table_cell raw ->
  exists w : pyval,
    normalize_label_py raw = inr w
    /\ w = normalize_label raw
    /\ exists l : Label,
         w = value_of raw l /\ (l = Missing <-> is_missing raw = true).
Proof.
  intros H. apply table_cell_within_str_limit in H.
  exists (normalize_label raw).
  split; [exact (normalize_label_py_returns raw H)|].
  split; [reflexivity|].
  destruct (normalize_label_total raw) as (l & (E & M & _) & _).
  exists l. split; assumption.
Qed.

Lemma normalize_label_never_raises_witness :
  exists w : pyval,
    normalize_label_py (PInt 9223372036854775807) = inr w
    /\ w = PStr "9223372036854775807".
Proof.
  assert (H : table_cell (PInt 9223372036854775807))
    by (split; apply Z.leb_le || apply Z.ltb_lt; vm_compute; reflexivity).
  destruct (normalize_label_never_raises (PInt 9223372036854775807) H)
    as (w & E & -> & _).
  exists (normalize_label (PInt 9223372036854775807)).
  split; [exact E | reflexivity].
Defined.

(** Beyond the limit, and so outside what a cell holds, [str] raises and
    [normalize_label] with it. *)
Example normalize_label_py_beyond_limit :
  normalize_label_py (PInt (10 ^ 4300)) = inl ValueError.
Proof. vm_compute. reflexivity. Qed.

(** C10. [normalize_label] is idempotent on every input: missing values,
    every spelling of Safe and Unsafe, and every Other text. *)
Theorem normalize_label_idempotent (x : pyval) :
  normalize_label (normalize_label x) = normalize_label x.
Proof.
  unfold normalize_label at 2 3.
  destruct (is_missing x) eqn:Hm.
  - unfold normalize_label. now rewrite Hm.
  - set (s := label_str x).
    destruct (contains "safe" s && negb (contains "unsafe" s)) eqn:E1;
      [reflexivity|].
    destruct (contains "unsafe" s || in_list s unsafe_literals) eqn:E2;
      [reflexivity|].
    unfold normalize_label.
    destruct (is_missing (PStr s)); [reflexivity|].
    assert (Hs : label_str (PStr s) = s).
    { unfold label_str, s; simpl. unfold label_str. apply strip_lower_fix. }
    rewrite Hs, E1, E2. reflexivity.
Qed.

End Normalizer.

(* ================================================================== *)
(** ** The metric stage *)

Section Metrics.

Context {rounding : Rounding}.

Local Open Scope Q_scope.

Lemma thousandths (k : Z) : (k # 1000) == inject_Z k * (1 # 1000).
Proof. unfold Qeq, inject_Z; simpl. lia. Qed.

(** [round_nearest] is at most one half away. *)
Lemma round_nearest_near (y : Q) :
  inject_Z (round_nearest y) - (1 # 2) <= y
  /\ y <= inject_Z (round_nearest y) + (1 # 2).
Proof.
  unfold round_nearest.
  pose proof (Qfloor_le y) as Hlo.
  pose proof (Qlt_floor y) as Hhi.
  rewrite inject_Z_plus in Hhi. change (inject_Z 1) with 1 in Hhi.
  set (f := Qfloor y) in *.
  destruct (y - inject_Z f ?= 1 # 2) eqn:C.
  - apply Qeq_alt in C.
    destruct (tie_up y); [rewrite inject_Z_plus; change (inject_Z 1) with 1|];
      split; lra.
  - apply Qlt_alt in C. split; lra.
  - apply Qgt_alt in C. rewrite inject_Z_plus. change (inject_Z 1) with 1.
    split; lra.
Qed.

Lemma round_nearest_nonneg (y : Q) : 0 <= y -> (0 <= round_nearest y)%Z.
Proof.
  intros Hy. unfold round_nearest.
  assert (Hf : (0 <= Qfloor y)%Z).
  { change 0%Z with (Qfloor (inject_Z 0)) at 1.
    rewrite Qfloor_Z. apply (Qfloor_resp_le 0 y) in Hy.
    exact Hy. }
  destruct (y - inject_Z (Qfloor y) ?= 1 # 2); [destruct (tie_up y)| |]; lia.
Qed.

Lemma round3_nearest (x : Q) : rounded_to_3_digits x (round3 x).
Proof.
  unfold rounded_to_3_digits, round3.
  exists (round_nearest (x * 1000)). split; [reflexivity|].
  destruct (round_nearest_near (x * 1000)) as [Hlo Hhi].
  apply Qabs_Qle_condition. rewrite thousandths. split; lra.
Qed.

Lemma round3_nonneg (x : Q) : 0 <= x -> 0 <= round3 x.
Proof.
  intros Hx. unfold round3.
  assert (H : (0 <= round_nearest (x * 1000))%Z)
    by (apply round_nearest_nonneg; lra).
  unfold Qle; simpl. lia.
Qed.

(** The guard of lines 72 to 81 keeps the division away from zero: the
    ratio never raises. *)
Lemma guarded_ratio_eq (num den : Z) :
  guarded_ratio num den = ret (ratio_metric num den).
Proof.
  unfold guarded_ratio, ratio_metric, truediv.
  destruct (den >? 0)%Z eqn:G; [|reflexivity].
  destruct (den =? 0)%Z eqn:E; [lia | reflexivity].
Qed.

Lemma ratio_nonneg (num den : Z) :
  (0 <= num)%Z -> nonneg_metric (ratio_metric num den).
Proof.
  intros Hn. unfold ratio_metric. destruct (den >? 0)%Z eqn:G; simpl; [|exact I].
  apply round3_nonneg. apply Qle_shift_div_l.
  - change 0 with (inject_Z 0). rewrite <- Zlt_Qlt. lia.
  - rewrite Qmult_0_l. change 0 with (inject_Z 0). rewrite <- Zle_Qle. lia.
Qed.

(** Lines 84 to 87 by cases; on metrics that are not negative the
    division of line 87 has a positive divisor and never raises. *)
Lemma f1_of_eq (ppv recall : metric) :
  nonneg_metric ppv -> nonneg_metric recall ->
  f1_of ppv recall = ret (f1_metric ppv recall).
Proof.
  intros Hp Hr. unfold f1_of, f1_metric.
  destruct ppv as [|p], recall as [|r]; simpl; try reflexivity.
  destruct (Qeq_bool p 0) eqn:Ep; [reflexivity|].
  destruct (Qeq_bool r 0) eqn:Er; [reflexivity|]. simpl.
  apply Qeq_bool_neq in Ep, Er. simpl in Hp, Hr.
  unfold div.
  destruct (Qeq_bool (p + r) 0) eqn:Es; [|reflexivity].
  apply Qeq_bool_eq in Es. exfalso. apply Ep. lra.
Qed.

End Metrics.

(* ================================================================== *)
(** ** Frames, masks and counts *)

Section Frames.

Local Open Scope Z_scope.

Lemma sum_from (m : list bool) (a : Z) :
  fold_left (fun acc b => acc + bool_to_Z b) m a = a + sum m.
Proof.
  unfold sum. revert a.
  induction m as [|b m IH]; intros a; simpl; [lia|].
  rewrite IH, (IH (bool_to_Z b)). lia.
Qed.

Lemma sum_cons (b : bool) (m : list bool) : sum (b :: m) = bool_to_Z b + sum m.
Proof. unfold sum at 1. simpl. now rewrite sum_from. Qed.

Lemma sum_nonneg (m : list bool) : 0 <= sum m.
Proof.
  induction m as [|b m IH]; [reflexivity|].
  rewrite sum_cons. destruct b; unfold bool_to_Z; lia.
Qed.

Lemma band_map {A B} (p : A -> bool) (q : B -> bool) (a : list A) (b : list B) :
  band (map p a) (map q b) =
  map (fun xy => p (fst xy) && q (snd xy)) (combine a b).
Proof.
  unfold band. revert b.
  induction a as [|x a IH]; intros [|y b]; simpl; try reflexivity.
  now rewrite IH.
Qed.

Lemma band_true_r (m : list bool) (n : nat) :
  (length m <= n)%nat -> band m (repeat true n) = m.
Proof.
  unfold band. revert n.
  induction m as [|b m IH]; intros [|n] H; simpl in *; try reflexivity; try lia.
  rewrite IH by lia. now rewrite andb_true_r.
Qed.

Lemma select_values_combine {A B} (mask : list bool) (a : list A) (b : list B) :
  combine (select_values mask a) (select_values mask b) =
  select_values mask (combine a b).
Proof.
  revert a b.
  induction mask as [|k mask IH]; intros [|x a] [|y b]; simpl;
    try reflexivity.
  - destruct k; [|now destruct (select_values mask a)].
    now destruct (select_values mask a).
  - destruct k; simpl; now rewrite IH.
Qed.

Lemma select_values_map {A} (f : A -> bool) (l : list A) :
  select_values (map f l) l = filter f l.
Proof.
  induction l as [|x l IH]; simpl; [reflexivity|].
  rewrite IH. reflexivity.
Qed.

Lemma select_values_length {A B} (mask : list bool) (a : list A) (b : list B) :
  length a = length b ->
  length (select_values mask a) = length (select_values mask b).
Proof.
  revert a b.
  induction mask as [|k mask IH]; intros [|x a] [|y b] H; simpl in *;
    try reflexivity; try discriminate.
  destruct k; simpl; rewrite (IH a b); congruence.
Qed.

Lemma select_values_all_false {A} (mask : list bool) (a : list A) :
  forallb negb mask = true -> select_values mask a = [].
Proof.
  revert a. induction mask as [|k mask IH]; intros [|x a] H; simpl in *;
    try reflexivity.
  apply andb_true_iff in H as [Hk H]. destruct k; [discriminate|].
  now apply IH.
Qed.

Lemma select_values_some_true {A} (mask : list bool) (a : list A) :
  length mask = length a -> existsb (fun b => b) mask = true ->
  select_values mask a <> [].
Proof.
  revert a. induction mask as [|k mask IH]; intros [|x a] HL H; simpl in *;
    try discriminate.
  destruct k; [discriminate|]. apply IH; [congruence | exact H].
Qed.

(** *** Columns by name *)

Lemma has_column_In (df : DataFrame) (c : string) :
  has_column df c = true <-> In c (df_columns df).
Proof.
  unfold has_column.
  induction df as [|[c' s] df IH]; simpl; [split; [discriminate | tauto]|].
  destruct (String.eqb c' c) eqn:E.
  - apply String.eqb_eq in E. split; auto.
  - apply String.eqb_neq in E. rewrite IH. split; [auto | intros [H|H]; tauto].
Qed.

Lemma lookup_some (df : DataFrame) (c : string) :
  In c (df_columns df) -> exists s, lookup df c = Some s.
Proof.
  intros H. apply has_column_In in H. unfold has_column in H.
  destruct (lookup df c) as [s|]; [now exists s | discriminate].
Qed.

Lemma lookup_In (df : DataFrame) (c : string) (s : Series) :
  lookup df c = Some s -> In (c, s) df.
Proof.
  induction df as [|[c' s'] df IH]; simpl; [discriminate|].
  destruct (String.eqb c' c) eqn:E.
  - apply String.eqb_eq in E. intros [= <-]. subst. now left.
  - intros H. right. now apply IH.
Qed.

Lemma getitem_lookup (df : DataFrame) (c : string) (s : Series) :
  getitem df c = inr s <-> lookup df c = Some s.
Proof.
  unfold getitem. destruct (lookup df c); simpl; split;
    intros H; inversion H; reflexivity.
Qed.

Lemma lookup_select (mask : list bool) (df : DataFrame) (c : string) :
  lookup (select mask df) c = option_map (select_values mask) (lookup df c).
Proof.
  induction df as [|[c' s] df IH]; simpl; [reflexivity|].
  destruct (String.eqb c' c); [reflexivity | exact IH].
Qed.

Lemma columns_select (mask : list bool) (df : DataFrame) :
  df_columns (select mask df) = df_columns df.
Proof. unfold df_columns, select. rewrite map_map. reflexivity. Qed.

Lemma lookup_setitem_same (df : DataFrame) (c : string) (s : Series) :
  lookup (setitem df c s) c = Some s.
Proof.
  induction df as [|[c' s'] df IH]; simpl.
  - now rewrite String.eqb_refl.
  - destruct (String.eqb c' c) eqn:E; simpl.
    + now rewrite String.eqb_refl.
    + now rewrite E.
Qed.

Lemma lookup_setitem_other (df : DataFrame) (c d : string) (s : Series) :
  c <> d -> lookup (setitem df c s) d = lookup df d.
Proof.
  intros N. induction df as [|[c' s'] df IH]; simpl.
  - apply String.eqb_neq in N. now rewrite N.
  - destruct (String.eqb c' c) eqn:E; simpl.
    + apply String.eqb_eq in E. subst c'.
      apply String.eqb_neq in N. now rewrite N.
    + destruct (String.eqb c' d); [reflexivity | exact IH].
Qed.

Lemma lookup_setitem_some (df : DataFrame) (c d : string) (s t : Series) :
  lookup df d = Some t -> exists t', lookup (setitem df c s) d = Some t'.
Proof.
  intros H. destruct (string_dec c d) as [->|N].
  - exists s. apply lookup_setitem_same.
  - exists t. now rewrite lookup_setitem_other.
Qed.

(** *** Well-formed frames *)

Lemma wf_lookup (df : DataFrame) (c : string) (s : Series) :
  wf_frame df -> lookup df c = Some s -> length s = len df.
Proof.
  intros W H. apply lookup_In in H.
  unfold wf_frame in W. rewrite Forall_forall in W.
  exact (W _ H).
Qed.

Lemma wf_select (mask : list bool) (df : DataFrame) :
  wf_frame df -> wf_frame (select mask df).
Proof.
  unfold wf_frame. intros W.
  destruct df as [|[c0 s0] df]; [constructor|].
  rewrite Forall_forall in *. intros [c s] H.
  unfold select in H. apply in_map_iff in H as ([c1 s1] & E & H).
  inversion E; subst; clear E. simpl.
  apply select_values_length. exact (W _ H).
Qed.

Lemma len_setitem (df : DataFrame) (c : string) (s : Series) :
  length s = len df -> df <> [] -> len (setitem df c s) = len df.
Proof.
  destruct df as [|[c' s'] df]; [congruence|].
  intros H _. simpl in *. destruct (String.eqb c' c); simpl; congruence.
Qed.

Lemma Forall_setitem (P : string * Series -> Prop) (df : DataFrame)
    (c : string) (s : Series) :
  Forall P df -> P (c, s) -> Forall P (setitem df c s).
Proof.
  intros W H. induction W as [|[c' s'] df Hx W IH]; simpl.
  - constructor; [exact H | constructor].
  - destruct (String.eqb c' c); constructor; assumption.
Qed.

Lemma wf_setitem (df : DataFrame) (c : string) (s : Series) :
  wf_frame df -> df <> [] -> length s = len df -> wf_frame (setitem df c s).
Proof.
  intros W N H. unfold wf_frame. rewrite len_setitem by assumption.
  apply Forall_setitem; assumption.
Qed.

End Frames.

(* ================================================================== *)
(** ** The stages of [evaluate_model] *)

Section Pipeline.

Local Open Scope Z_scope.

(** *** Lines 39 and 40 *)

Lemma count_empty_cells_missing (df : DataFrame) (pc tc m : string)
    (ms : list string) :
  filter (fun c => negb (has_column df c)) [pc; tc] = m :: ms ->
  count_empty_cells df pc tc = inl (KeyError (m :: ms)).
Proof.
  intros H. unfold count_empty_cells, getitems. now rewrite H.
Qed.

Lemma count_empty_cells_present (df : DataFrame) (pc tc : string) :
  In pc (df_columns df) -> In tc (df_columns df) ->
  exists n, count_empty_cells df pc tc = inr n.
Proof.
  intros Hp Ht.
  pose proof Hp as Hp'. pose proof Ht as Ht'.
  apply has_column_In in Hp', Ht'.
  apply lookup_some in Hp as [p Hp], Ht as [t Ht].
  unfold count_empty_cells, getitems, getitem. simpl.
  rewrite Hp', Ht', Hp, Ht. simpl. eauto.
Qed.

(** *** Lines 53 and 54 *)

Lemma add_normalized_inv (df ndf : DataFrame) (pc tc : string) :
  add_normalized df pc tc = inr ndf ->
  exists pred truth,
    lookup df pc = Some pred
    /\ lookup (setitem df "normalized_pred" (map normalize_label pred)) tc
       = Some truth
    /\ ndf = setitem (setitem df "normalized_pred" (map normalize_label pred))
                     "normalized_truth" (map normalize_label truth).
Proof.
  unfold add_normalized. intros H.
  bind_inv H. bind_inv H. apply getitem_lookup in E, E0.
  inversion H. eauto.
Qed.

Lemma add_normalized_present (df : DataFrame) (pc tc : string) :
  In pc (df_columns df) -> In tc (df_columns df) ->
  exists ndf, add_normalized df pc tc = inr ndf.
Proof.
  intros Hp Ht. apply lookup_some in Hp as [p Hp], Ht as [t Ht].
  destruct (lookup_setitem_some df "normalized_pred" tc
              (map normalize_label p) t Ht) as [t' Ht'].
  unfold add_normalized, getitem. rewrite Hp. cbn [bind ret].
  rewrite Ht'. cbn [bind ret]. eauto.
Qed.

Lemma add_normalized_columns (df ndf : DataFrame) (pc tc : string) :
  add_normalized df pc tc = inr ndf ->
  exists pred truth,
    lookup ndf "normalized_pred" = Some pred
    /\ lookup ndf "normalized_truth" = Some truth.
Proof.
  intros H. apply add_normalized_inv in H as (p & t & _ & _ & ->).
  exists (map normalize_label p), (map normalize_label t). split.
  - rewrite lookup_setitem_other by discriminate. apply lookup_setitem_same.
  - apply lookup_setitem_same.
Qed.

Lemma add_normalized_wf (df ndf : DataFrame) (pc tc : string) :
  wf_frame df -> add_normalized df pc tc = inr ndf -> wf_frame ndf.
Proof.
  intros W H. apply add_normalized_inv in H as (p & t & Hp & Ht & ->).
  assert (N : df <> []) by (destruct df; [discriminate Hp | discriminate]).
  assert (Lp : length (map normalize_label p) = len df)
    by (rewrite length_map; eapply wf_lookup; eassumption).
  assert (W1 : wf_frame (setitem df "normalized_pred" (map normalize_label p)))
    by (apply wf_setitem; assumption).
  assert (N1 : setitem df "normalized_pred" (map normalize_label p) <> [])
    by (destruct df as [|[c s] df]; [congruence|];
        simpl; destruct (String.eqb c _); discriminate).
  apply wf_setitem; [assumption | assumption |].
  rewrite length_map. eapply wf_lookup; eassumption.
Qed.

(** *** Lines 57 and 58 *)

Lemma filter_filter {A} (f g : A -> bool) (l : list A) :
  filter g (filter f l) = filter (fun x => f x && g x) l.
Proof.
  induction l as [|x l IH]; simpl; [reflexivity|].
  destruct (f x); simpl; [destruct (g x)|]; now rewrite IH.
Qed.

Lemma complete_row_split (pt : pyval * pyval) :
  (negb (isna (fst pt)) && negb (isna (snd pt)))
  && (negb (eq_str (fst pt) "") && negb (eq_str (snd pt) ""))
  = complete_row pt.
Proof.
  unfold complete_row, is_missing.
  destruct (isna (fst pt)), (isna (snd pt)), (eq_str (fst pt) ""),
    (eq_str (snd pt) ""); reflexivity.
Qed.

(** The frame that survives lines 57 and 58, and its two normalised
    columns: the rows of the normalised frame with both cells present. *)
Lemma drop_incomplete_spec (ndf : DataFrame) (a b : Series) :
  wf_frame ndf ->
  lookup ndf "normalized_pred" = Some a ->
  lookup ndf "normalized_truth" = Some b ->
  exists sdf pred truth,
    drop_incomplete ndf = inr sdf
    /\ wf_frame sdf
    /\ lookup sdf "normalized_pred" = Some pred
    /\ lookup sdf "normalized_truth" = Some truth
    /\ combine pred truth = filter complete_row (combine a b).
Proof.
  intros W Ha Hb.
  assert (La : length a = len ndf) by (eapply wf_lookup; eassumption).
  assert (Lb : length b = len ndf) by (eapply wf_lookup; eassumption).
  unfold drop_incomplete, dropna. cbn [notna_mask].
  unfold getitem at 1 2. rewrite Ha, Hb. cbn [bind ret].
  rewrite band_true_r by (rewrite length_map; lia).
  set (m1 := band _ _).
  unfold getitem. rewrite !lookup_select, Ha, Hb. cbn [option_map bind ret].
  set (m2 := band _ _).
  exists (select m2 (select m1 ndf)),
         (select_values m2 (select_values m1 a)),
         (select_values m2 (select_values m1 b)).
  split; [reflexivity|].
  split; [now apply wf_select, wf_select|].
  split; [now rewrite !lookup_select, Ha|].
  split; [now rewrite !lookup_select, Hb|].
  rewrite !select_values_combine.
  assert (E1 : select_values m1 (combine a b)
               = filter (fun pt => negb (isna (fst pt)) && negb (isna (snd pt)))
                        (combine a b)).
  { unfold m1. rewrite band_map. apply select_values_map. }
  assert (E2 : m2 = map (fun pt => negb (eq_str (fst pt) "")
                                   && negb (eq_str (snd pt) ""))
                        (select_values m1 (combine a b))).
  { unfold m2, ne_series. rewrite band_map.
    now rewrite select_values_combine. }
  rewrite E2, select_values_map, E1, filter_filter.
  apply filter_ext. intros pt. apply complete_row_split.
Qed.

(** *** Lines 63 to 66 *)

Lemma tally_eq (df : DataFrame) (pred truth : Series) (p t : string) :
  lookup df "normalized_pred" = Some pred ->
  lookup df "normalized_truth" = Some truth ->
  tally df p t = inr (count_rows p t (combine pred truth)).
Proof.
  intros Hp Ht. unfold tally, getitem. rewrite Hp, Ht. cbn [bind ret].
  unfold eq_series, count_rows. now rewrite band_map.
Qed.

Lemma tally_inv (df : DataFrame) (p t : string) (n : Z) :
  tally df p t = inr n ->
  exists pred truth,
    lookup df "normalized_pred" = Some pred
    /\ lookup df "normalized_truth" = Some truth.
Proof.
  unfold tally. intros H. bind_inv H. bind_inv H.
  apply getitem_lookup in E, E0. eauto.
Qed.

Lemma tally_nonneg (df : DataFrame) (p t : string) (n : Z) :
  tally df p t = inr n -> 0 <= n.
Proof.
  unfold tally. intros H. bind_inv H. bind_inv H.
  inversion H. apply sum_nonneg.
Qed.

Lemma eq_str_safe_unsafe (v : pyval) :
  eq_str v "safe" = true -> eq_str v "unsafe" = false.
Proof.
  destruct v; simpl; try discriminate.
  intros E. apply String.eqb_eq in E. now subst.
Qed.

(** Every row falls in exactly one of five classes: the four cells of the
    confusion matrix and the rows with an Other label. *)
Lemma confusion_partition (rows : list (pyval * pyval)) :
  count_rows "unsafe" "unsafe" rows + count_rows "safe" "safe" rows
  + count_rows "unsafe" "safe" rows + count_rows "safe" "unsafe" rows
  + sum (map (fun pt => is_other (fst pt) || is_other (snd pt)) rows)
  = Z.of_nat (length rows).
Proof.
  induction rows as [|[p t] rows IH]; [reflexivity|].
  unfold count_rows in *. cbn [map length fst snd]. rewrite !sum_cons.
  rewrite Nat2Z.inj_succ, <- IH. unfold is_other.
  pose proof (eq_str_safe_unsafe p) as Xp.
  pose proof (eq_str_safe_unsafe t) as Xt.
  destruct (eq_str p "safe"), (eq_str p "unsafe"),
    (eq_str t "safe"), (eq_str t "unsafe");
    try (specialize (Xp eq_refl); discriminate);
    try (specialize (Xt eq_refl); discriminate);
    cbn [bool_to_Z andb orb negb]; lia.
Qed.

End Pipeline.

(* ================================================================== *)
(** ** The evaluator *)

Section Evaluator.

Context {rounding : Rounding}.

Local Open Scope Z_scope.

Variables (category_name prediction_column truth_column : string).

(** *** The category filter *)

Lemma all_false_no_true (mask : list bool) :
  forallb negb mask = negb (existsb (fun b => b) mask).
Proof.
  induction mask as [|b mask IH]; simpl; [reflexivity|].
  rewrite IH. now destruct b.
Qed.

Lemma existsb_map {A B} (f : A -> B) (p : B -> bool) (l : list A) :
  existsb p (map f l) = existsb (fun x => p (f x)) l.
Proof.
  induction l as [|x l IH]; simpl; [reflexivity | now rewrite IH].
Qed.

Lemma empty_select_all_false (mask : list bool) (df : DataFrame) :
  existsb (fun b => b) mask = false -> empty (select mask df) = true.
Proof.
  intros H. unfold empty.
  destruct df as [|[c s] df]; [reflexivity|]. simpl.
  rewrite select_values_all_false; [reflexivity|].
  now rewrite all_false_no_true, H.
Qed.

Lemma empty_select_some_true (mask : list bool) (df : DataFrame) :
  wf_frame df -> length mask = len df ->
  existsb (fun b => b) mask = true -> empty (select mask df) = false.
Proof.
  intros W L H. unfold empty.
  destruct df as [|[c s] df]; [destruct mask; discriminate|]. simpl in *.
  destruct (select_values mask s) eqn:E; [|reflexivity].
  exfalso. revert E. apply select_values_some_true; assumption.
Qed.

Lemma category_column_present (df : DataFrame) (c : string)
    (rest : list string) :
  category_columns df = c :: rest -> exists col, lookup df c = Some col.
Proof.
  intros H. apply lookup_some.
  assert (I : In c (category_columns df)) by (rewrite H; now left).
  unfold category_columns in I. now apply filter_In in I.
Qed.

(** Lines 42 to 51 on a well-formed frame, by cases. *)
Lemma filter_category_cases (df : DataFrame) :
  wf_frame df ->
  filter_category df category_name =
  if String.eqb (lower category_name) "total" then inr (inr df)
  else
    match category_columns df with
    | [] => inr (inl (ErrorDict (Message "Category column not found.")))
    | c :: _ =>
        match lookup df c with
        | None => inl (KeyError [c])
        | Some col =>
            match dtype_of col with
            | object_ =>
                if existsb (fun v => eq_str v (lower category_name))
                           (str_lower col)
                then inr (inr (select (eq_series (str_lower col)
                                                 (lower category_name)) df))
                else inr (inl (ErrorDict (no_data_found category_name)))
            | _ => inl AttributeError
            end
        end
    end.
Proof.
  intros W. unfold filter_category.
  destruct (String.eqb (lower category_name) "total"); [reflexivity|].
  cbn [negb]. cbn zeta.
  destruct (category_columns df) as [|c rest] eqn:EC; [reflexivity|].
  unfold getitem. destruct (lookup df c) as [col|] eqn:EL; [|reflexivity].
  cbn [bind ret]. unfold str_accessor.
  destruct (dtype_of col); try reflexivity. cbn [bind ret].
  set (mask := eq_series (str_lower col) (lower category_name)).
  assert (EM : existsb (fun v => eq_str v (lower category_name)) (str_lower col)
               = existsb (fun b => b) mask)
    by (unfold mask, eq_series; now rewrite existsb_map).
  rewrite EM.
  destruct (existsb (fun b => b) mask) eqn:EX.
  - rewrite empty_select_some_true; try assumption; [reflexivity|].
    unfold mask, eq_series, str_lower. rewrite !length_map.
    eapply wf_lookup; eassumption.
  - rewrite empty_select_all_false by assumption. reflexivity.
Qed.

(** The frame the filter hands on has the columns of the table and is
    well formed. *)
Lemma filter_category_kept (df fdf : DataFrame) :
  wf_frame df ->
  filter_category df category_name = inr (inr fdf) ->
  df_columns fdf = df_columns df /\ wf_frame fdf.
Proof.
  intros W H. rewrite filter_category_cases in H by assumption.
  destruct (String.eqb (lower category_name) "total").
  - inversion H; subst. auto.
  - destruct (category_columns df) as [|c rest]; [discriminate|].
    destruct (lookup df c) as [col|]; [|discriminate].
    destruct (dtype_of col); try discriminate.
    destruct (existsb _ _); [|discriminate].
    inversion H; subst. split; [apply columns_select | now apply wf_select].
Qed.

(** *** Lines 53 to 110 *)

(** The metric stage never raises: the frame stage is its first three
    steps, then the report. *)
Lemma evaluate_frame_eq (cols : list string) (ec : Z) (df : DataFrame) :
  evaluate_frame cols ec df category_name prediction_column truth_column =
  (ndf <- add_normalized df prediction_column truth_column ;;
   sdf <- drop_incomplete ndf ;;
   tp <- tally sdf "unsafe" "unsafe" ;;
   tn <- tally sdf "safe" "safe" ;;
   fp <- tally sdf "unsafe" "safe" ;;
   fn <- tally sdf "safe" "unsafe" ;;
   ret (ResultsDict (report category_name cols ec
                       (Z.of_nat (len ndf)) (Z.of_nat (len sdf))
                       tp tn fp fn))).
Proof.
  unfold evaluate_frame.
  destruct (add_normalized _ _ _) as [e|ndf]; [reflexivity|]. cbn [bind].
  destruct (drop_incomplete ndf) as [e|sdf]; [reflexivity|]. cbn [bind].
  destruct (tally sdf "unsafe" "unsafe") as [e|tp] eqn:Etp; [reflexivity|].
  cbn [bind].
  destruct (tally sdf "safe" "safe") as [e|tn] eqn:Etn; [reflexivity|].
  cbn [bind].
  destruct (tally sdf "unsafe" "safe") as [e|fp] eqn:Efp; [reflexivity|].
  cbn [bind].
  destruct (tally sdf "safe" "unsafe") as [e|fn] eqn:Efn; [reflexivity|].
  cbn [bind].
  apply tally_nonneg in Etp, Etn, Efp, Efn.
  rewrite !guarded_ratio_eq. cbn [bind ret].
  rewrite f1_of_eq by (apply ratio_nonneg; assumption).
  reflexivity.
Qed.

(** On a well-formed frame that has the two columns, lines 53 to 110
    return the report of the surviving rows. *)
Lemma evaluate_frame_spec (cols : list string) (ec : Z) (df : DataFrame) :
  wf_frame df ->
  In prediction_column (df_columns df) ->
  In truth_column (df_columns df) ->
  exists ndf sdf all_pred all_truth pred truth,
    add_normalized df prediction_column truth_column = inr ndf
    /\ lookup ndf "normalized_pred" = Some all_pred
    /\ lookup ndf "normalized_truth" = Some all_truth
    /\ drop_incomplete ndf = inr sdf
    /\ wf_frame sdf
    /\ lookup sdf "normalized_pred" = Some pred
    /\ lookup sdf "normalized_truth" = Some truth
    /\ combine pred truth = filter complete_row (combine all_pred all_truth)
    /\ evaluate_frame cols ec df category_name prediction_column truth_column
       = inr (ResultsDict
                (report category_name cols ec
                   (Z.of_nat (len ndf)) (Z.of_nat (len sdf))
                   (count_rows "unsafe" "unsafe" (combine pred truth))
                   (count_rows "safe" "safe" (combine pred truth))
                   (count_rows "unsafe" "safe" (combine pred truth))
                   (count_rows "safe" "unsafe" (combine pred truth)))).
Proof.
  intros W Hp Ht.
  destruct (add_normalized_present df _ _ Hp Ht) as [ndf Hn].
  destruct (add_normalized_columns _ _ _ _ Hn) as (a & b & Ha & Hb).
  pose proof (add_normalized_wf _ _ _ _ W Hn) as Wn.
  destruct (drop_incomplete_spec ndf a b Wn Ha Hb)
    as (sdf & p & t & Hs & Ws & Lp & Lt & Hc).
  exists ndf, sdf, a, b, p, t.
  repeat (split; [assumption|]).
  rewrite evaluate_frame_eq, Hn. cbn [bind]. rewrite Hs. cbn [bind].
  rewrite !(tally_eq sdf p t) by assumption. reflexivity.
Qed.

(** *** The whole function *)

(** A run that returned results read a table, found the two columns and
    passed the category filter. *)
Lemma evaluate_model_results (csv : M DataFrame) (r : results) :
  evaluate_model csv category_name prediction_column truth_column
  = ResultsDict r ->
  exists df ec fdf,
    csv = inr df
    /\ In prediction_column (df_columns df)
    /\ In truth_column (df_columns df)
    /\ filter_category df category_name = inr (inr fdf)
    /\ evaluate_frame (df_columns df) ec fdf
         category_name prediction_column truth_column
       = inr (ResultsDict r).
Proof.
  unfold evaluate_model, evaluate_body. intros H.
  destruct csv as [e|df]; [discriminate|]. cbn [bind] in H.
  destruct (count_empty_cells df prediction_column truth_column)
    as [e|ec] eqn:EC; [discriminate|]. cbn [bind] in H.
  destruct (filter_category df category_name) as [e|[early|fdf]] eqn:EF;
    cbn [bind] in H; [discriminate| |].
  - exfalso. unfold filter_category in EF.
    destruct (negb _); [|discriminate]. cbn zeta in EF.
    destruct (category_columns df).
    + inversion EF; subst. discriminate.
    + bind_inv EF. bind_inv EF.
      destruct (empty _); inversion EF; subst; discriminate.
  - exists df, ec, fdf. split; [reflexivity|].
    unfold count_empty_cells in EC. bind_inv EC. bind_inv EC. bind_inv EC.
    apply getitem_lookup in E0, E1.
    split; [|split].
    + apply has_column_In. unfold has_column. now rewrite E0.
    + apply has_column_In. unfold has_column. now rewrite E1.
    + split; [exact EF|].
      destruct (evaluate_frame _ _ _ _ _ _) as [e|x]; [discriminate|].
      now subst.
Qed.

End Evaluator.

(* ================================================================== *)
(** ** What the specification claims of the evaluator *)

Section Claims.

Context {rounding : Rounding}.

Local Open Scope Z_scope.

Variables (category_name prediction_column truth_column : string).

(** C2. When the evaluation of a table succeeds, the reported total
    TP+TN+FP+FN is the number of surviving rows (filteredCount) less the
    surviving rows in which the normalised prediction or the normalised
    truth is neither 'safe' nor 'unsafe'.  The surviving rows are the rows
    of the normalised frame with both cells present, so a row with an
    Other label is kept and counted in filteredCount; the four counts take
    only rows whose two labels are 'safe' or 'unsafe'. *)
Theorem total_excludes_other_rows (df : DataFrame) (r : results) :
  wf_frame df ->
  evaluate_model (inr df) category_name prediction_column truth_column
  = ResultsDict r ->
  exists fdf ndf sdf all_pred all_truth pred truth,
    filter_category df category_name = inr (inr fdf)
    /\ add_normalized fdf prediction_column truth_column = inr ndf
    /\ lookup ndf "normalized_pred" = Some all_pred
    /\ lookup ndf "normalized_truth" = Some all_truth
    /\ drop_incomplete ndf = inr sdf
    /\ lookup sdf "normalized_pred" = Some pred
    /\ lookup sdf "normalized_truth" = Some truth
    /\ length pred = len sdf
    /\ length truth = len sdf
    /\ combine pred truth = filter complete_row (combine all_pred all_truth)
    /\ (let filtered_count := Z.of_nat (len sdf) in
        total_samples r = filtered_count - other_rows pred truth
        /\ rows_removed r = Z.of_nat (len ndf) - filtered_count
        /\ total_samples r =
           count_rows "unsafe" "unsafe" (combine pred truth)
           + count_rows "safe" "safe" (combine pred truth)
           + count_rows "unsafe" "safe" (combine pred truth)
           + count_rows "safe" "unsafe" (combine pred truth)).
Proof.
  intros W H.
  apply evaluate_model_results in H
    as (df0 & ec & fdf & E & Hp & Ht & HF & HE).
  injection E as <-.
  destruct (filter_category_kept _ _ _ W HF) as [EC WF].
  rewrite <- EC in Hp, Ht.
  destruct (evaluate_frame_spec category_name prediction_column truth_column
              (df_columns df) ec fdf WF Hp Ht)
    as (ndf & sdf & a & b & p & t & Hn & Ha & Hb & Hs & Ws & Lp & Lt & Hc & Hr).
  rewrite Hr in HE. injection HE as <-.
  assert (Hlp : length p = len sdf) by (eapply wf_lookup; eassumption).
  assert (Hlt : length t = len sdf) by (eapply wf_lookup; eassumption).
  exists fdf, ndf, sdf, a, b, p, t.
  repeat (split; [assumption|]).
  cbn zeta. cbn [report total_samples rows_removed].
  split; [|split; reflexivity].
  pose proof (confusion_partition (combine p t)) as P.
  rewrite length_combine, Hlp, Hlt, Nat.min_id in P.
  unfold other_rows. lia.
Qed.

(** C3. In a successful evaluation every derived metric has its own
    guard and its division never meets a zero divisor: with the four
    counts of the confusion matrix and total = TP+TN+FP+FN, accuracy is
    (TP+TN)/total rounded to 3 digits when total > 0 and N/A otherwise;
    precision is TP/(TP+FP) rounded when TP+FP > 0, else N/A; npv is
    TN/(TN+FN) rounded when TN+FN > 0, else N/A; recall is TP/(TP+FN)
    rounded when TP+FN > 0, else N/A.  Each guarded expression of the
    source returns its metric, it does not raise; and [round3], whichever
    way the float arithmetic breaks a tie, yields a whole number of
    thousandths within half a thousandth of its argument. *)
Theorem metrics_guarded (csv : M DataFrame) (r : results) :
  evaluate_model csv category_name prediction_column truth_column = ResultsDict r ->
  exists tp tn fp fn : Z,
    let total := tp + tn + fp + fn in
    let ratio (num den : Z) : metric :=
      if den >? 0 then Num (round3 (inject_Z num / inject_Z den)) else NA in
    confusion_matrix r =
      [ [""; "Predicted Unsafe"; "Predicted Safe"];
        ["Actual Unsafe"; ("TP: " ++ str_int tp)%string;
                          ("FN: " ++ str_int fn)%string];
        ["Actual Safe"; ("FP: " ++ str_int fp)%string;
                        ("TN: " ++ str_int tn)%string] ]
    /\ total_samples r = total
    /\ (accuracy r = ratio (tp + tn) total
        /\ guarded_ratio (tp + tn) total = inr (accuracy r))
    /\ (precision_ppv r = ratio tp (tp + fp)
        /\ guarded_ratio tp (tp + fp) = inr (precision_ppv r))
    /\ (npv r = ratio tn (tn + fn)
        /\ guarded_ratio tn (tn + fn) = inr (npv r))
    /\ (recall r = ratio tp (tp + fn)
        /\ guarded_ratio tp (tp + fn) = inr (recall r))
    /\ (forall x : Q, rounded_to_3_digits x (round3 x)).
Proof.
  intros H.
  apply evaluate_model_results in H
    as (df & ec & fdf & _ & _ & _ & _ & HE).
  rewrite evaluate_frame_eq in HE.
  bind_inv HE. bind_inv HE. bind_inv HE. bind_inv HE. bind_inv HE. bind_inv HE.
  injection HE as <-.
  exists z, z0, z1, z2. cbn zeta. cbn [report confusion_matrix total_samples
    accuracy precision_ppv npv recall].
  rewrite !guarded_ratio_eq. unfold ratio_metric, ret.
  repeat split. apply round3_nearest.
Qed.

(** The F1 score of two metrics is N/A exactly when one of them is N/A
    or zero. *)
Lemma f1_metric_NA (ppv rec : metric) :
  f1_metric ppv rec = NA <->
  (ppv = NA \/ rec = NA
   \/ (exists p, ppv = Num p /\ (p == 0)%Q)
   \/ (exists q, rec = Num q /\ (q == 0)%Q)).
Proof.
  unfold f1_metric. destruct ppv as [|p], rec as [|q]; try tauto.
  destruct (Qeq_bool p 0) eqn:Ep; [|destruct (Qeq_bool q 0) eqn:Eq]; simpl.
  - apply Qeq_bool_eq in Ep. split; [|reflexivity].
    intros _. right. right. left. eauto.
  - apply Qeq_bool_eq in Eq. split; [|reflexivity].
    intros _. right. right. right. eauto.
  - apply Qeq_bool_neq in Ep, Eq. split; [discriminate|].
    intros [H|[H|[(x & [= <-] & H)|(x & [= <-] & H)]]];
      try discriminate; contradiction.
Qed.

(** C4. In a successful evaluation the F1 score is N/A if and only if
    the precision is N/A, the recall is N/A, the precision is zero or the
    recall is zero; otherwise it is 2*precision*recall/(precision+recall)
    rounded to 3 digits, precision and recall being the reported
    metrics. *)
Theorem f1_guarded (csv : M DataFrame) (r : results) :
  evaluate_model csv category_name prediction_column truth_column = ResultsDict r ->
  (f1_score r = NA <->
   (precision_ppv r = NA \/ recall r = NA
    \/ (exists p, precision_ppv r = Num p /\ (p == 0)%Q)
    \/ (exists q, recall r = Num q /\ (q == 0)%Q)))
  /\ (forall p q : Q,
        precision_ppv r = Num p -> recall r = Num q ->
        ~ (p == 0)%Q -> ~ (q == 0)%Q ->
        f1_score r = Num (round3 (2 * (p * q) / (p + q)))
        /\ f1_of (precision_ppv r) (recall r) = inr (f1_score r)).
Proof.
  intros H.
  apply evaluate_model_results in H
    as (df & ec & fdf & _ & _ & _ & _ & HE).
  rewrite evaluate_frame_eq in HE.
  bind_inv HE. bind_inv HE. bind_inv HE. bind_inv HE. bind_inv HE. bind_inv HE.
  injection HE as <-.
  cbn [report f1_score precision_ppv recall].
  split; [apply f1_metric_NA|].
  intros p q Hp Hq Np Nq.
  apply tally_nonneg in E1, E2, E3, E4.
  rewrite f1_of_eq by (apply ratio_nonneg; assumption).
  split; [|reflexivity].
  rewrite Hp, Hq. unfold f1_metric.
  destruct (Qeq_bool p 0) eqn:Ep; [apply Qeq_bool_eq in Ep; contradiction|].
  destruct (Qeq_bool q 0) eqn:Eq; [apply Qeq_bool_eq in Eq; contradiction|].
  reflexivity.
Qed.

(** Whether a name is a column depends on the column names only. *)
Lemma has_column_names (df df' : DataFrame) (c : string) :
  df_columns df' = df_columns df -> has_column df' c = has_column df c.
Proof.
  intros E.
  pose proof (has_column_In df c) as H.
  pose proof (has_column_In df' c) as H'.
  rewrite E in H'.
  destruct (has_column df c), (has_column df' c); try reflexivity.
  - apply H'. apply H. reflexivity.
  - symmetry. apply H. apply H'. reflexivity.
Qed.

(** An evaluation that finds a column absent stops at line 39. *)
Lemma evaluate_missing (df : DataFrame) (m : string) (ms : list string) :
  filter (fun c => negb (has_column df c))
         [prediction_column; truth_column] = m :: ms ->
  evaluate_model (inr df) category_name prediction_column truth_column
  = ErrorDict (StrOf (KeyError (m :: ms))).
Proof.
  intros H. unfold evaluate_model, evaluate_body. cbn [bind].
  now rewrite (count_empty_cells_missing _ _ _ _ _ H).
Qed.

(** C6. When the prediction column or the truth column is absent from
    the table, the evaluation returns the error of the failed column
    lookup (the specification's ColumnNotFound), which names the absent
    columns; no result is returned, and no row is looked at: any table
    with the same column names gives the same error. *)
Theorem missing_column_error (df : DataFrame) :
  ~ In prediction_column (df_columns df)
  \/ ~ In truth_column (df_columns df) ->
  exists missing : list string,
    missing <> []
    /\ (forall c, In c missing <->
                  (c = prediction_column \/ c = truth_column)
                  /\ ~ In c (df_columns df))
    /\ evaluate_model (inr df) category_name prediction_column truth_column
       = ErrorDict (StrOf (KeyError missing))
    /\ (forall df', df_columns df' = df_columns df ->
          evaluate_model (inr df') category_name prediction_column truth_column
          = ErrorDict (StrOf (KeyError missing))).
Proof.
  intros H.
  set (absent := fun d c => negb (has_column d c)).
  set (missing := filter (absent df) [prediction_column; truth_column]).
  assert (Hin : forall c, In c missing <->
                  (c = prediction_column \/ c = truth_column)
                  /\ ~ In c (df_columns df)).
  { intros c. unfold missing. rewrite filter_In. unfold absent.
    rewrite negb_true_iff, <- has_column_In.
    rewrite <- not_true_iff_false. simpl. intuition congruence. }
  assert (Hne : missing <> []).
  { intros E.
    destruct H as [H|H];
      [assert (I : In prediction_column missing)
      |assert (I : In truth_column missing)];
      try (apply Hin; auto); rewrite E in I; exact I. }
  exists missing. split; [exact Hne|]. split; [exact Hin|].
  destruct missing as [|m ms] eqn:EM; [congruence|].
  split.
  - now apply evaluate_missing.
  - intros df' EC. apply evaluate_missing. rewrite <- EM.
    unfold missing. apply filter_ext. intros c. unfold absent.
    now rewrite (has_column_names df df' c EC).
Qed.

(** C7. The code misses the claim on a category column that does not
    hold text (numbers, booleans, or no value at all): [.str] at line 48
    raises before any row is compared, so that, whatever category other
    than "total" is asked for, the evaluation returns the error of that
    exception and never "No data found for category '<name>'." *)
Theorem category_filter_raises_off_text (df : DataFrame) (c : string)
    (rest : list string) (col : Series) :
  In prediction_column (df_columns df) ->
  In truth_column (df_columns df) ->
  category_columns df = c :: rest ->
  lookup df c = Some col ->
  dtype_of col <> object_ ->
  lower category_name <> "total"%string ->
  evaluate_model (inr df) category_name prediction_column truth_column
  = ErrorDict (StrOf AttributeError)
  /\ evaluate_model (inr df) category_name prediction_column truth_column
     <> ErrorDict (no_data_found category_name).
Proof.
  intros Hp Ht HC HL HD HN.
  assert (E : evaluate_model (inr df) category_name prediction_column
                truth_column = ErrorDict (StrOf AttributeError)).
  { destruct (count_empty_cells_present df _ _ Hp Ht) as [ec Hec].
    unfold evaluate_model, evaluate_body. cbn [bind].
    rewrite Hec. cbn [bind].
    unfold filter_category. apply String.eqb_neq in HN. rewrite HN.
    cbn [negb]. cbn zeta. rewrite HC.
    unfold getitem. rewrite HL. cbn [bind ret].
    unfold str_accessor. destruct (dtype_of col); [congruence| | |];
      reflexivity. }
  split; [exact E|]. rewrite E. discriminate.
Qed.

(** X16. On a table that has the prediction and the truth column, and
    whose first column with "category" in its name holds text, a
    category other than "total" that matches no cell of that column,
    both lower-cased, gives the error "No data found for category
    '<name>'." (the specification's CategoryNotFound), and no result. *)
Theorem category_not_found (df : DataFrame) (c : string)
    (rest : list string) (col : Series) :
  In prediction_column (df_columns df) ->
  In truth_column (df_columns df) ->
  category_columns df = c :: rest ->
  lookup df c = Some col ->
  dtype_of col = object_ ->
  lower category_name <> "total"%string ->
  (forall t, In (PStr t) col -> lower t <> lower category_name) ->
  evaluate_model (inr df) category_name prediction_column truth_column
  = ErrorDict (no_data_found category_name).
Proof.
  intros Hp Ht HC HL HD HN HM.
  destruct (count_empty_cells_present df _ _ Hp Ht) as [ec Hec].
  unfold evaluate_model, evaluate_body. cbn [bind].
  rewrite Hec. cbn [bind].
  unfold filter_category. apply String.eqb_neq in HN. rewrite HN.
  cbn [negb]. cbn zeta. rewrite HC.
  unfold getitem. rewrite HL. cbn [bind ret].
  unfold str_accessor. rewrite HD. cbn [bind ret].
  rewrite empty_select_all_false; [reflexivity|].
  unfold eq_series, str_lower. rewrite !existsb_map.
  apply not_true_iff_false. intros HE.
  apply existsb_exists in HE as (v & Hv & E).
  destruct v as [| |t| | |]; try discriminate E.
  simpl in E. apply String.eqb_eq in E. exact (HM t Hv E).
Qed.

(** Once the columns are found and the category filter is passed, a
    well-formed frame is evaluated to a result. *)
Lemma evaluate_frame_returns (cols : list string) (ec : Z) (df : DataFrame) :
  wf_frame df ->
  In prediction_column (df_columns df) ->
  In truth_column (df_columns df) ->
  exists r,
    evaluate_frame cols ec df category_name prediction_column truth_column
    = inr (ResultsDict r).
Proof.
  intros W Hp Ht.
  destruct (evaluate_frame_spec category_name prediction_column truth_column
              cols ec df W Hp Ht)
    as (ndf & sdf & a & b & p & t & _ & _ & _ & _ & _ & _ & _ & _ & Hr).
  eauto.
Qed.

(** C8. The evaluation always returns to its caller, with an error
    dictionary or with the complete results, never with part of them: a
    source that could not be read gives the error of the reader; a table
    gives the first error met (an absent column, no category column, a
    category column that is not text, no row of the category) and nothing
    else, or, when none is met, the results. *)
Theorem evaluate_model_never_fatal (csv : M DataFrame) :
  (forall df, csv = inr df -> wf_frame df) ->
  match csv with
  | inl e =>
      evaluate_model csv category_name prediction_column truth_column
      = ErrorDict (StrOf e)
  | inr df =>
      match stops_with df category_name prediction_column truth_column with
      | Some err =>
          evaluate_model csv category_name prediction_column truth_column
          = ErrorDict err
      | None =>
          exists r,
            evaluate_model csv category_name prediction_column truth_column
            = ResultsDict r
      end
  end.
Proof.
  intros W. destruct csv as [e|df]; [reflexivity|].
  specialize (W df eq_refl). unfold stops_with.
  destruct (filter _ [prediction_column; truth_column]) as [|m ms] eqn:EM;
    [|now apply evaluate_missing].
  assert (Hp : In prediction_column (df_columns df)).
  { apply has_column_In. apply negb_false_iff.
    destruct (negb (has_column df prediction_column)) eqn:E; [|reflexivity].
    simpl in EM. rewrite E in EM. discriminate. }
  assert (Ht : In truth_column (df_columns df)).
  { apply has_column_In. apply negb_false_iff.
    destruct (negb (has_column df truth_column)) eqn:E; [|reflexivity].
    simpl in EM. rewrite E in EM.
    destruct (negb (has_column df prediction_column)); discriminate. }
  destruct (count_empty_cells_present df _ _ Hp Ht) as [ec Hec].
  unfold evaluate_model, evaluate_body. cbn [bind].
  rewrite Hec. cbn [bind].
  rewrite filter_category_cases by assumption.
  destruct (String.eqb (lower category_name) "total").
  - cbn [bind].
    destruct (evaluate_frame_returns (df_columns df) ec df W Hp Ht) as [r Hr].
    rewrite Hr. eauto.
  - destruct (category_columns df) as [|c rest] eqn:EC; [reflexivity|].
    destruct (category_column_present df c rest EC) as [col HL].
    rewrite HL.
    destruct (dtype_of col); try reflexivity.
    destruct (existsb _ (str_lower col)); [|reflexivity].
    cbn [bind].
    set (mask := eq_series (str_lower col) (lower category_name)).
    assert (Ws : wf_frame (select mask df)) by now apply wf_select.
    destruct (evaluate_frame_returns (df_columns df) ec (select mask df) Ws)
      as [r Hr]; try (rewrite columns_select; assumption).
    rewrite Hr. eauto.
Qed.

End Claims.

Lemma total_excludes_other_rows_witness :
  exists sdf pred truth,
    lookup sdf "normalized_pred" = Some pred
    /\ lookup sdf "normalized_truth" = Some truth
    /\ total_samples sample_results
       = (Z.of_nat (len sdf) - other_rows pred truth)%Z.
Proof.
  assert (W : wf_frame sample_frame) by (repeat constructor).
  assert (E : evaluate_model (rounding := ties_down)
      (inr sample_frame) "total" "pred" "truth"
              = ResultsDict sample_results) by (vm_compute; reflexivity).
  destruct (total_excludes_other_rows "total" "pred" "truth"
              sample_frame sample_results W E)
    as (fdf & ndf & sdf & a & b & p & t & _ & _ & _ & _ & _ & Hp & Ht & _ & _
        & _ & Htot & _).
  exists sdf, p, t. repeat split; assumption.
Defined.

Lemma metrics_guarded_witness :
  (exists tp tn fp fn : Z,
     total_samples sample_results = (tp + tn + fp + fn)%Z
     /\ guarded_ratio (rounding := ties_down) (tp + tn) (tp + tn + fp + fn)
        = inr (Num (600 # 1000))
     /\ guarded_ratio (rounding := ties_down) tp (tp + fp)
        = inr (Num (667 # 1000)))
  /\ (exists tp tn fp fn : Z,
        total_samples mixed_results = (tp + tn + fp + fn)%Z
        /\ guarded_ratio (rounding := ties_down) (tp + tn) (tp + tn + fp + fn)
           = inr (Num (500 # 1000))
        /\ guarded_ratio (rounding := ties_down) tp (tp + fp) = inr NA
        /\ guarded_ratio (rounding := ties_down) tp (tp + fn)
           = inr (Num (0 # 1000))).
Proof.
  split.
  - assert (E : evaluate_model (rounding := ties_down)
                  (inr sample_frame) "total" "pred" "truth"
                = ResultsDict sample_results) by (vm_compute; reflexivity).
    destruct (metrics_guarded "total" "pred" "truth" _ _ E)
      as (tp & tn & fp & fn & _ & Ht & [_ Ha] & [_ Hp] & _).
    exists tp, tn, fp, fn. repeat split; assumption.
  - assert (E : evaluate_model (rounding := ties_down)
                  (inr mixed_frame) "total" "pred" "truth"
                = ResultsDict mixed_results) by (vm_compute; reflexivity).
    destruct (metrics_guarded "total" "pred" "truth" _ _ E)
      as (tp & tn & fp & fn & _ & Ht & [_ Ha] & [_ Hp] & _ & [_ Hr] & _).
    exists tp, tn, fp, fn. repeat split; assumption.
Defined.

Lemma f1_guarded_witness :
  (f1_score sample_results = NA <->
   (precision_ppv sample_results = NA \/ recall sample_results = NA
    \/ (exists p, precision_ppv sample_results = Num p /\ (p == 0)%Q)
    \/ (exists q, recall sample_results = Num q /\ (q == 0)%Q)))
  /\ f1_score sample_results
     = Num (round3 (rounding := ties_down)
              (2 * ((667 # 1000) * (667 # 1000))
               / ((667 # 1000) + (667 # 1000))))
  /\ (f1_score mixed_results = NA <->
      (precision_ppv mixed_results = NA \/ recall mixed_results = NA
       \/ (exists p, precision_ppv mixed_results = Num p /\ (p == 0)%Q)
       \/ (exists q, recall mixed_results = Num q /\ (q == 0)%Q))).
Proof.
  assert (E : evaluate_model (rounding := ties_down)
                (inr sample_frame) "total" "pred" "truth"
              = ResultsDict sample_results) by (vm_compute; reflexivity).
  assert (E' : evaluate_model (rounding := ties_down)
                 (inr mixed_frame) "total" "pred" "truth"
               = ResultsDict mixed_results) by (vm_compute; reflexivity).
  destruct (f1_guarded "total" "pred" "truth" _ _ E) as [HN HF].
  split; [exact HN|]. split.
  - apply (HF (667 # 1000) (667 # 1000)); try reflexivity;
      intros H; discriminate H.
  - exact (proj1 (f1_guarded "total" "pred" "truth" _ _ E')).
Defined.

Lemma missing_column_error_witness :
  exists missing : list string,
    evaluate_model (rounding := ties_down)
        (inr sample_frame) "total" "prediction" "truth"
    = ErrorDict (StrOf (KeyError missing)).
Proof.
  assert (H : ~ In "prediction" (df_columns sample_frame)
              \/ ~ In "truth" (df_columns sample_frame)).
  { left. simpl. intros [E|[E|[E|[]]]]; discriminate E. }
  destruct (missing_column_error (rounding := ties_down)
              "total" "prediction" "truth" sample_frame H)
    as (missing & _ & _ & E & _).
  exists missing. exact E.
Defined.

(** The table of the failure: the category column holds the numbers 1
    and 2, [main] offers them as categories, no row has the category
    "5", and the evaluation returns the error of [.str]. *)
Lemma category_filter_raises_off_text_witness :
  available_categories numeric_category_frame = inr (Some [PInt 1; PInt 2])
  /\ (forall v, In v [PInt 1; PInt 2] -> lower (str v) <> lower "5")
  /\ evaluate_model (rounding := ties_down)
       (inr numeric_category_frame) "5" "pred" "truth"
     = ErrorDict (StrOf AttributeError)
  /\ evaluate_model (rounding := ties_down)
       (inr numeric_category_frame) "5" "pred" "truth"
     <> ErrorDict (no_data_found "5").
Proof.
  split; [reflexivity|]. split.
  - intros v [<-|[<-|[]]]; discriminate.
  - apply (category_filter_raises_off_text (rounding := ties_down)
             "5" "pred" "truth" numeric_category_frame
             "category" [] [PInt 1; PInt 2]).
    + simpl. auto.
    + simpl. auto.
    + reflexivity.
    + reflexivity.
    + discriminate.
    + discriminate.
Defined.

Lemma category_not_found_witness :
  evaluate_model (rounding := ties_down)
      (inr sample_frame) "Fraud" "pred" "truth"
  = ErrorDict (no_data_found "Fraud").
Proof.
  apply (category_not_found (rounding := ties_down)
           "Fraud" "pred" "truth" sample_frame
           "Category" []
           [PStr "Hate"; PStr "hate"; PStr "Spam"; PStr "Spam";
            PStr "hate"; PStr "Spam"; PStr "HATE"]).
  - simpl. auto.
  - simpl. auto.
  - reflexivity.
  - reflexivity.
  - reflexivity.
  - discriminate.
  - intros t H. simpl in H.
    repeat (destruct H as [H|H]; [injection H as <-; discriminate|]).
    destruct H.
Defined.

Lemma evaluate_model_never_fatal_witness :
  exists r,
    evaluate_model (rounding := ties_down)
        (inr sample_frame) "total" "pred" "truth" = ResultsDict r.
Proof.
  assert (W : forall df, @inr exn DataFrame sample_frame = inr df
                         -> wf_frame df).
  { intros df E. injection E as <-. repeat constructor. }
  exact (evaluate_model_never_fatal (rounding := ties_down)
           "total" "pred" "truth"
           (inr sample_frame) W).
Defined.

(* ================================================================== *)
(** ** Sample runs of [evaluate_model] *)

(** The scenario of the specification: one row in each cell of the
    confusion matrix, every metric one half. *)
Example scenario_balanced :
  evaluate_model (rounding := ties_down)
      (inr spec_scenario) "total" "pred" "truth"
  = ResultsDict (report (rounding := ties_down)
                   "total" ["pred"; "truth"] 0 4 4 1 1 1 1)
  /\ accuracy (report (rounding := ties_down)
                 "total" ["pred"; "truth"] 0 4 4 1 1 1 1)
     = Num (500 # 1000).
Proof. split; vm_compute; reflexivity. Qed.

(** Every prediction empty: no row survives and every metric is N/A. *)
Example scenario_empty_predictions :
  evaluate_model (rounding := ties_down)
      (inr empty_predictions) "total" "pred" "truth"
  = ResultsDict
      {| category := "total";
         columns := ["pred"; "truth"];
         total_samples := 0;
         empty_cells := 3;
         rows_removed := 3;
         accuracy := NA;
         confusion_matrix :=
           [ [""; "Predicted Unsafe"; "Predicted Safe"];
             ["Actual Unsafe"; "TP: 0"; "FN: 0"];
             ["Actual Safe"; "FP: 0"; "TN: 0"] ];
         precision_ppv := NA;
         npv := NA;
         recall := NA;
         f1_score := NA |}.
Proof. vm_compute. reflexivity. Qed.

(** A ratio exactly between two thousandths: the accuracy 1/80 of
    [tie_frame] is 0.012 when the tie goes down and 0.013 when it goes
    up; the model leaves open which of the two the float arithmetic
    gives. *)
Example scenario_accuracy_tie :
  match evaluate_model (rounding := ties_down)
          (inr tie_frame) "total" "pred" "truth",
        evaluate_model (rounding := ties_up_all)
          (inr tie_frame) "total" "pred" "truth" with
  | ResultsDict down, ResultsDict up =>
      accuracy down = Num (12 # 1000) /\ accuracy up = Num (13 # 1000)
  | _, _ => False
  end.
Proof. vm_compute. split; reflexivity. Qed.

(** The same for F1: with precision 0.333 and recall 0.111 it is 0.166
    or 0.167. *)
Example scenario_f1_tie :
  match evaluate_model (rounding := ties_down)
          (inr f1_tie_frame) "total" "pred" "truth",
        evaluate_model (rounding := ties_up_all)
          (inr f1_tie_frame) "total" "pred" "truth" with
  | ResultsDict down, ResultsDict up =>
      precision_ppv down = Num (333 # 1000)
      /\ recall down = Num (111 # 1000)
      /\ f1_score down = Num (166 # 1000)
      /\ f1_score up = Num (167 # 1000)
  | _, _ => False
  end.
Proof. vm_compute. repeat split; reflexivity. Qed.

(** A source that could not be read. *)
Example scenario_unreadable :
  evaluate_model (rounding := ties_down)
      (inl (ReadError "No such file or directory"))
                 "total" "pred" "truth"
  = ErrorDict (StrOf (ReadError "No such file or directory")).
Proof. reflexivity. Qed.

(** A category column of numbers: the string accessor of line 48 raises,
    whatever the category asked for. *)
Example scenario_numeric_category :
  evaluate_model (rounding := ties_down)
      (inr numeric_category_frame) "5" "pred" "truth"
  = ErrorDict (StrOf AttributeError).
Proof. reflexivity. Qed.

(** A filter on a category keeps the rows of that category, whatever the
    case of the letters. *)
Example scenario_category :
  match evaluate_model (rounding := ties_down)
      (inr sample_frame) "hate" "pred" "truth" with
  | ResultsDict r => total_samples r = 3%Z /\ rows_removed r = 0%Z
  | ErrorDict _ => False
  end.
Proof. vm_compute. split; reflexivity. Qed.

(* ================================================================== *)
(** * Further properties of the code *)

(** ** [normalize_label] on text and on integers *)

Section NormalizerMore.

Local Ltac by_cases_on c :=
  destruct c as [[] [] [] [] [] [] [] []]; try reflexivity; try discriminate.

(** A text and its lower-cased, trimmed form are normalised alike. *)
Lemma normalize_label_text (s : string) :
  normalize_label (PStr s) = normalize_label (PStr (strip (lower s))).
Proof.
  destruct s as [|c r]; [reflexivity|].
  destruct (strip (lower (String c r))) as [|c' r'] eqn:E.
  - unfold normalize_label. cbn [is_missing isna eq_str orb String.eqb].
    unfold label_str. cbn [str]. rewrite E. reflexivity.
  - assert (Eu : strip (lower (String c' r')) = String c' r')
      by (rewrite <- E; apply strip_lower_fix).
    unfold normalize_label.
    cbn [is_missing isna eq_str orb String.eqb].
    unfold label_str. cbn [str]. now rewrite E, Eu.
Qed.

(** X5. Two texts that are equal once lower-cased and trimmed are
    normalised to the same value: the case of the letters and the white
    space around a label do not matter. *)
Theorem normalize_label_ignores_case_and_padding (s t : string) :
  strip (lower s) = strip (lower t) ->
  normalize_label (PStr s) = normalize_label (PStr t).
Proof.
  intros E.
  rewrite (normalize_label_text s), (normalize_label_text t).
  now rewrite E.
Qed.

Lemma normalize_label_ignores_case_and_padding_witness :
  normalize_label (PStr "  UnSafe (1) ") = normalize_label (PStr "unsafe (1)").
Proof.
  apply (normalize_label_ignores_case_and_padding
           "  UnSafe (1) " "unsafe (1)").
  reflexivity.
Defined.

(** *** Decimal numerals *)

Lemma numeral_char_lower (c : ascii) :
  numeral_char c = true -> lower_char c = c.
Proof. by_cases_on c. Qed.

Lemma numeral_char_solid (c : ascii) :
  numeral_char c = true -> is_space c = false.
Proof. by_cases_on c. Qed.

Lemma numeral_char_not_s (c : ascii) :
  numeral_char c = true -> Ascii.eqb "s" c = false.
Proof. by_cases_on c. Qed.

Lemma numeral_char_not_u (c : ascii) :
  numeral_char c = true -> Ascii.eqb "u" c = false.
Proof. by_cases_on c. Qed.

Lemma uint_numeral (d : Decimal.uint) :
  all_chars numeral_char (NilEmpty.string_of_uint d) = true.
Proof. induction d; simpl; auto. Qed.

Lemma str_int_numeral (z : Z) : all_chars numeral_char (str_int z) = true.
Proof.
  unfold str_int, NilZero.string_of_int, NilZero.string_of_uint.
  destruct (Z.to_int z) as [d|d]; destruct d; try reflexivity;
    apply (uint_numeral (_ _)) || (simpl; apply (uint_numeral _)).
Qed.

Lemma numeral_lower (s : string) :
  all_chars numeral_char s = true -> lower s = s.
Proof.
  induction s as [|c r IH]; simpl; [reflexivity|].
  intros H. apply andb_true_iff in H as [Hc Hr].
  now rewrite numeral_char_lower, IH.
Qed.

Lemma numeral_rstrip (s : string) :
  all_chars numeral_char s = true -> rstrip s = s.
Proof.
  induction s as [|c r IH]; simpl; [reflexivity|].
  intros H. apply andb_true_iff in H as [Hc Hr].
  rewrite IH by assumption.
  destruct r; [now rewrite numeral_char_solid | reflexivity].
Qed.

Lemma numeral_strip (s : string) :
  all_chars numeral_char s = true -> strip s = s.
Proof.
  intros H. unfold strip.
  assert (L : lstrip s = s).
  { destruct s as [|c r]; [reflexivity|]. simpl in *.
    apply andb_true_iff in H as [Hc _].
    now rewrite numeral_char_solid. }
  rewrite L. now apply numeral_rstrip.
Qed.

Lemma numeral_no_safe (s : string) :
  all_chars numeral_char s = true ->
  contains "safe" s = false /\ contains "unsafe" s = false.
Proof.
  induction s as [|c r IH]; [split; reflexivity|].
  intros H. simpl in H. apply andb_true_iff in H as [Hc Hr].
  destruct (IH Hr) as [I1 I2].
  cbn [contains starts_with].
  now rewrite I1, I2, numeral_char_not_s, numeral_char_not_u.
Qed.

Lemma numeral_literal (s : string) :
  all_chars numeral_char s = true ->
  in_list s unsafe_literals = String.eqb s "0".
Proof.
  intros H. unfold in_list, unsafe_literals. cbn [existsb].
  assert (K : forall l, all_chars numeral_char l = false ->
                        String.eqb s l = false).
  { intros l Hl. apply String.eqb_neq. intros ->. congruence. }
  rewrite (K "1 (unsafe)"), (K "0 (unsafe)"), (K "unsafe (0)"),
    (K "unsafe (1)") by reflexivity.
  now rewrite !orb_false_r.
Qed.

Lemma str_int_zero (z : Z) : String.eqb (str_int z) "0" = (z =? 0)%Z.
Proof.
  destruct z as [|p|p]; [reflexivity| |reflexivity].
  apply String.eqb_neq. unfold str_int. cbn [Z.to_int NilZero.string_of_int].
  intros E.
  pose proof (NilZero.usu (Pos.to_uint p) (DecimalPos.Unsigned.to_uint_nonnil p)) as U.
  rewrite E in U. cbn in U. injection U as U.
  symmetry in U. exact (DecimalPos.Unsigned.to_uint_nonzero p U).
Qed.

(** X6. On an integer cell [normalize_label] gives 'unsafe' for 0 and,
    for every other integer, its decimal numeral as an Other text: no
    integer, 1 included, is normalised to 'safe'. *)
Theorem normalize_label_int (z : Z) :
  normalize_label (PInt z) =
    (if (z =? 0)%Z then PStr "unsafe" else PStr (str_int z))
  /\ normalize_label (PInt z) <> PStr "safe".
Proof.
  pose proof (str_int_numeral z) as N.
  assert (E : normalize_label (PInt z) =
              if (z =? 0)%Z then PStr "unsafe" else PStr (str_int z)).
  { unfold normalize_label. cbn [is_missing isna eq_str orb].
    unfold label_str. cbn [str].
    rewrite (numeral_lower _ N), (numeral_strip _ N).
    destruct (numeral_no_safe _ N) as [-> ->]. cbn [andb orb negb].
    now rewrite (numeral_literal _ N), str_int_zero. }
  split; [exact E|]. rewrite E.
  destruct (z =? 0)%Z; [discriminate|].
  intros [= H]. rewrite H in N. discriminate N.
Qed.

End NormalizerMore.

(* ================================================================== *)
(** ** Counting the cells and the rows *)

Section Counting.

Context {rounding : Rounding}.

Local Open Scope Z_scope.

Variables (category_name prediction_column truth_column : string).

Lemma sum_map_split {A} (f g h : A -> bool) (l : list A) :
  (forall x, bool_to_Z (h x) = bool_to_Z (f x) + bool_to_Z (g x)) ->
  sum (map h l) = sum (map f l) + sum (map g l).
Proof.
  intros H. induction l as [|x l IH]; [reflexivity|].
  cbn [map]. rewrite !sum_cons, IH, H. lia.
Qed.

Lemma sum_is_missing (s : Series) :
  sum (map is_missing s) = sum (map isna s) + sum (eq_series s "").
Proof.
  unfold eq_series. apply sum_map_split. intros v. unfold is_missing.
  destruct v; reflexivity || (simpl; destruct (String.eqb _ _); reflexivity).
Qed.

Lemma filter_length_sum {A} (f : A -> bool) (l : list A) :
  Z.of_nat (length l)
  = Z.of_nat (length (filter f l)) + sum (map (fun x => negb (f x)) l).
Proof.
  induction l as [|x l IH]; [reflexivity|].
  cbn [map filter length]. rewrite sum_cons, Nat2Z.inj_succ, IH.
  destruct (f x); cbn [length negb bool_to_Z]; lia.
Qed.

Lemma combine_map_both {A B} (f : A -> B) (x y : list A) :
  combine (map f x) (map f y)
  = map (fun pt => (f (fst pt), f (snd pt))) (combine x y).
Proof.
  revert y. induction x as [|a x IH]; intros [|b y]; simpl;
    try reflexivity.
  now rewrite IH.
Qed.

Lemma select_values_le {A} (mask : list bool) (l : list A) :
  (length (select_values mask l) <= length l)%nat.
Proof.
  revert l. induction mask as [|b mask IH]; intros [|x l]; simpl; try lia.
  specialize (IH l). destruct b; simpl; lia.
Qed.

Lemma len_select (mask : list bool) (df : DataFrame) :
  (len (select mask df) <= len df)%nat.
Proof.
  destruct df as [|[c s] df]; simpl; [lia | apply select_values_le].
Qed.

(** A cell is dropped by lines 57 and 58 exactly when it is blank. *)
Lemma normalized_missing_blank (v : pyval) :
  is_missing (normalize_label v) = blank v.
Proof.
  unfold blank, normalize_label.
  destruct (is_missing v) eqn:Hm; [exact Hm|]. cbn [orb].
  destruct (label_str v) as [|c r] eqn:E; [reflexivity|].
  destruct (_ && _); [reflexivity|].
  destruct (_ || _); reflexivity.
Qed.

(** *** The whole function, with the count of empty cells *)

Lemma evaluate_model_run (csv : M DataFrame) (r : results) :
  evaluate_model csv category_name prediction_column truth_column
  = ResultsDict r ->
  exists df ec fdf,
    csv = inr df
    /\ count_empty_cells df prediction_column truth_column = inr ec
    /\ filter_category df category_name = inr (inr fdf)
    /\ evaluate_frame (df_columns df) ec fdf
         category_name prediction_column truth_column
       = inr (ResultsDict r).
Proof.
  intros H.
  destruct (evaluate_model_results _ _ _ _ _ H)
    as (df & _ & fdf & -> & Hp & Ht & HF & _).
  destruct (count_empty_cells_present df _ _ Hp Ht) as [ec Hec].
  exists df, ec, fdf. repeat (split; [reflexivity || assumption|]).
  unfold evaluate_model, evaluate_body in H. cbn [bind] in H.
  rewrite Hec, HF in H. cbn [bind] in H.
  destruct (evaluate_frame _ _ _ _ _ _) as [e|x]; [discriminate|].
  now subst.
Qed.

Lemma count_empty_cells_eq (df : DataFrame) (pred truth : Series) :
  lookup df prediction_column = Some pred ->
  lookup df truth_column = Some truth ->
  count_empty_cells df prediction_column truth_column
  = inr (sum (map is_missing pred) + sum (map is_missing truth)).
Proof.
  intros Hp Ht. unfold count_empty_cells, getitems, getitem, has_column.
  cbn [filter]. rewrite Hp, Ht. cbn [negb bind ret map].
  unfold isna_sum_sum. cbn [fold_left snd]. rewrite Hp, Ht.
  rewrite !sum_is_missing. unfold ret. f_equal. lia.
Qed.

(** X1. The count of empty cells of a successful evaluation is the
    number of cells of the prediction column plus the number of cells of
    the truth column that are [None], NaN or the empty string, over the
    whole table: the rows that the category filter leaves out are counted
    too. *)
Theorem empty_cells_counts_missing (csv : M DataFrame) (r : results) :
  evaluate_model csv category_name prediction_column truth_column
  = ResultsDict r ->
  exists df pred truth,
    csv = inr df
    /\ lookup df prediction_column = Some pred
    /\ lookup df truth_column = Some truth
    /\ empty_cells r = sum (map is_missing pred) + sum (map is_missing truth).
Proof.
  intros H.
  destruct (evaluate_model_results _ _ _ _ _ H)
    as (df0 & _ & _ & E0 & Hp & Ht & _ & _).
  apply evaluate_model_run in H as (df & ec & fdf & -> & Hec & HF & HE).
  injection E0 as <-.
  apply lookup_some in Hp as [pred Hp], Ht as [truth Ht].
  exists df, pred, truth. repeat (split; [reflexivity || assumption|]).
  rewrite (count_empty_cells_eq df pred truth Hp Ht) in Hec.
  injection Hec as <-.
  rewrite evaluate_frame_eq in HE.
  bind_inv HE. bind_inv HE. bind_inv HE. bind_inv HE. bind_inv HE. bind_inv HE.
  injection HE as <-. reflexivity.
Qed.

(** *** Rows *)

Lemma add_normalized_len (df ndf : DataFrame) :
  wf_frame df ->
  add_normalized df prediction_column truth_column = inr ndf ->
  len ndf = len df.
Proof.
  intros W H. apply add_normalized_inv in H as (p & t & Hp & Ht & ->).
  assert (N : df <> []) by (destruct df; [discriminate Hp | discriminate]).
  assert (Lp : length (map normalize_label p) = len df)
    by (rewrite length_map; eapply wf_lookup; eassumption).
  assert (W1 : wf_frame (setitem df "normalized_pred" (map normalize_label p)))
    by (apply wf_setitem; assumption).
  assert (N1 : setitem df "normalized_pred" (map normalize_label p) <> [])
    by (destruct df as [|[c s] df]; [congruence|];
        simpl; destruct (String.eqb c _); discriminate).
  rewrite len_setitem; [now apply len_setitem| |exact N1].
  rewrite length_map. eapply wf_lookup; eassumption.
Qed.

Lemma filter_category_len (df fdf : DataFrame) :
  wf_frame df ->
  filter_category df category_name = inr (inr fdf) ->
  (len fdf <= len df)%nat
  /\ (lower category_name = "total"%string -> fdf = df).
Proof.
  intros W H. rewrite filter_category_cases in H by assumption.
  destruct (String.eqb (lower category_name) "total") eqn:ET.
  - injection H as <-. auto.
  - apply String.eqb_neq in ET.
    destruct (category_columns df) as [|c rest]; [discriminate|].
    destruct (lookup df c) as [col|]; [|discriminate].
    destruct (dtype_of col); try discriminate.
    destruct (existsb _ _); [|discriminate].
    injection H as <-. split; [apply len_select | contradiction].
Qed.

(** The report of a successful evaluation of a well-formed table, with
    the frames and columns it went through. *)
Lemma evaluate_model_trace (df : DataFrame) (r : results) :
  wf_frame df ->
  evaluate_model (inr df) category_name prediction_column truth_column
  = ResultsDict r ->
  exists ec fdf ndf sdf all_pred all_truth pred truth,
    filter_category df category_name = inr (inr fdf)
    /\ wf_frame fdf
    /\ df_columns fdf = df_columns df
    /\ add_normalized fdf prediction_column truth_column = inr ndf
    /\ lookup ndf "normalized_pred" = Some all_pred
    /\ lookup ndf "normalized_truth" = Some all_truth
    /\ length all_pred = len fdf
    /\ length all_truth = len fdf
    /\ lookup sdf "normalized_pred" = Some pred
    /\ lookup sdf "normalized_truth" = Some truth
    /\ combine pred truth = filter complete_row (combine all_pred all_truth)
    /\ Z.of_nat (len sdf) = Z.of_nat (length (combine pred truth))
    /\ r = report category_name (df_columns df) ec
             (Z.of_nat (len fdf)) (Z.of_nat (len sdf))
             (count_rows "unsafe" "unsafe" (combine pred truth))
             (count_rows "safe" "safe" (combine pred truth))
             (count_rows "unsafe" "safe" (combine pred truth))
             (count_rows "safe" "unsafe" (combine pred truth)).
Proof.
  intros W H.
  apply evaluate_model_results in H
    as (df0 & ec & fdf & E & Hp & Ht & HF & HE).
  injection E as <-.
  destruct (filter_category_kept _ _ _ W HF) as [EC WF].
  rewrite <- EC in Hp, Ht.
  destruct (evaluate_frame_spec category_name prediction_column truth_column
              (df_columns df) ec fdf WF Hp Ht)
    as (ndf & sdf & a & b & p & t & Hn & Ha & Hb & Hs & Ws & Lp & Lt & Hc & Hr).
  rewrite Hr in HE. injection HE as <-.
  pose proof (add_normalized_wf _ _ _ _ WF Hn) as Wn.
  pose proof (add_normalized_len _ _ WF Hn) as Ln.
  exists ec, fdf, ndf, sdf, a, b, p, t.
  repeat (split; [assumption|]).
  split; [rewrite <- Ln; eapply wf_lookup; eassumption|].
  split; [rewrite <- Ln; eapply wf_lookup; eassumption|].
  repeat (split; [assumption|]).
  split; [|now rewrite Ln].
  rewrite length_combine.
  rewrite (wf_lookup sdf _ p Ws Lp), (wf_lookup sdf _ t Ws Lt).
  now rewrite Nat.min_id.
Qed.


(** X7. The rows removed are the rows of the filtered table with a blank
    prediction or a blank truth cell, a blank cell being [None], NaN or a
    text that is empty once trimmed; so a cell of white space removes its
    row although it is not counted among the empty cells.  (The truth
    column must not be called normalized_pred, the name line 53 writes
    to.) *)
Theorem rows_removed_are_blank (df : DataFrame) (r : results) :
  wf_frame df ->
  truth_column <> "normalized_pred"%string ->
  evaluate_model (inr df) category_name prediction_column truth_column
  = ResultsDict r ->
  exists fdf raw_pred raw_truth,
    filter_category df category_name = inr (inr fdf)
    /\ lookup fdf prediction_column = Some raw_pred
    /\ lookup fdf truth_column = Some raw_truth
    /\ rows_removed r
       = sum (map (fun pt => blank (fst pt) || blank (snd pt))
                  (combine raw_pred raw_truth)).
Proof.
  intros W N H.
  destruct (evaluate_model_trace df r W H)
    as (ec & fdf & ndf & sdf & a & b & p & t & HF & WF & _ & Hn & Ha & Hb
        & La & Lb & Lp & Lt & Hc & Ls & ->).
  apply add_normalized_inv in Hn as (rp & rt & Hrp & Hrt & ->).
  rewrite lookup_setitem_other in Hrt by congruence.
  rewrite lookup_setitem_other, lookup_setitem_same in Ha by discriminate.
  rewrite lookup_setitem_same in Hb.
  injection Ha as <-. injection Hb as <-.
  exists fdf, rp, rt. repeat (split; [assumption|]).
  cbn [report rows_removed].
  pose proof (filter_length_sum complete_row
                (combine (map normalize_label rp) (map normalize_label rt)))
    as F.
  rewrite <- Hc in F.
  rewrite length_combine, La, Lb, Nat.min_id in F.
  rewrite combine_map_both, map_map in F.
  assert (E : sum (map (fun x => negb (complete_row
                 (normalize_label (fst x), normalize_label (snd x))))
                 (combine rp rt))
              = sum (map (fun pt => blank (fst pt) || blank (snd pt))
                         (combine rp rt))).
  { f_equal. apply map_ext. intros [x y]. unfold complete_row.
    cbn [fst snd]. rewrite !normalized_missing_blank.
    now destruct (blank x), (blank y). }
  lia.
Qed.

End Counting.

(* ================================================================== *)
(** ** The range of the metrics *)

Section MetricRange.

Context {rounding : Rounding}.

Local Open Scope Q_scope.

Lemma round3_le_1 (x : Q) : x <= 1 -> round3 x <= 1.
Proof.
  intros Hx. unfold round3.
  destruct (round_nearest_near (x * 1000)) as [Hlo _].
  assert (H : inject_Z (round_nearest (x * 1000)) <= 1000 + (1 # 2))
    by lra.
  unfold Qle in *. simpl in *. lia.
Qed.

Lemma ratio_in_unit (num den : Z) :
  (0 <= num <= den)%Z -> in_unit_interval (ratio_metric num den).
Proof.
  intros [H0 H1]. unfold ratio_metric.
  destruct (den >? 0)%Z eqn:G; [|exact I]. simpl.
  assert (Hd : 0 < inject_Z den)
    by (change 0 with (inject_Z 0); rewrite <- Zlt_Qlt; lia).
  split.
  - apply round3_nonneg. apply Qle_shift_div_l; [exact Hd|].
    rewrite Qmult_0_l. change 0 with (inject_Z 0). now rewrite <- Zle_Qle.
  - apply round3_le_1. apply Qle_shift_div_r; [exact Hd|].
    rewrite Qmult_1_l. now rewrite <- Zle_Qle.
Qed.

Lemma f1_in_unit (ppv rec : metric) :
  in_unit_interval ppv -> in_unit_interval rec ->
  in_unit_interval (f1_metric ppv rec).
Proof.
  unfold f1_metric. destruct ppv as [|p], rec as [|r]; try (intros; exact I).
  intros [Hp0 Hp1] [Hr0 Hr1].
  destruct (Qeq_bool p 0) eqn:Ep; [exact I|].
  destruct (Qeq_bool r 0) eqn:Er; [exact I|].
  apply Qeq_bool_neq in Ep, Er. simpl.
  assert (Hs : 0 < p + r) by lra.
  assert (Hpr : 0 <= p * r) by (apply Qmult_le_0_compat; assumption).
  assert (Hpp : p * r <= p).
  { setoid_replace p with (p * 1) at 2 by ring.
    apply Qmult_le_l; [lra | exact Hr1]. }
  assert (Hrr : p * r <= r).
  { setoid_replace r with (1 * r) at 2 by ring.
    apply Qmult_le_compat_r; assumption. }
  split.
  - apply round3_nonneg. apply Qle_shift_div_l; [exact Hs | lra].
  - apply round3_le_1. apply Qle_shift_div_r; [exact Hs | lra].
Qed.

(** X3. Every metric of a successful evaluation that is a number lies
    between 0 and 1: accuracy, precision, NPV, recall and F1. *)
Theorem metrics_in_unit_interval (csv : M DataFrame)
    (category_name prediction_column truth_column : string) (r : results) :
  evaluate_model csv category_name prediction_column truth_column
  = ResultsDict r ->
  in_unit_interval (accuracy r)
  /\ in_unit_interval (precision_ppv r)
  /\ in_unit_interval (npv r)
  /\ in_unit_interval (recall r)
  /\ in_unit_interval (f1_score r).
Proof.
  intros H.
  apply evaluate_model_results in H as (df & ec & fdf & _ & _ & _ & _ & HE).
  rewrite evaluate_frame_eq in HE.
  bind_inv HE. bind_inv HE. bind_inv HE. bind_inv HE. bind_inv HE. bind_inv HE.
  injection HE as <-.
  apply tally_nonneg in E1, E2, E3, E4.
  cbn [report accuracy precision_ppv npv recall f1_score].
  assert (P : in_unit_interval (ratio_metric z (z + z1)))
    by (apply ratio_in_unit; lia).
  assert (R : in_unit_interval (ratio_metric z (z + z2)))
    by (apply ratio_in_unit; lia).
  repeat split; try assumption;
    try (apply ratio_in_unit; lia); now apply f1_in_unit.
Qed.

End MetricRange.

Lemma metrics_in_unit_interval_witness :
  in_unit_interval (f1_score sample_results).
Proof.
  assert (E : evaluate_model (rounding := ties_down)
      (inr sample_frame) "total" "pred" "truth"
              = ResultsDict sample_results) by (vm_compute; reflexivity).
  exact (proj2 (proj2 (proj2 (proj2
           (metrics_in_unit_interval _ _ _ _ _ E))))).
Defined.

(* ================================================================== *)
(** ** The category filter *)

Section CategoryMore.

Context {rounding : Rounding}.

Variables (prediction_column truth_column : string).

Lemma filter_category_lower (c1 c2 : string) (df fdf : DataFrame) :
  lower c1 = lower c2 ->
  filter_category df c1 = inr (inr fdf) ->
  filter_category df c2 = inr (inr fdf).
Proof.
  unfold filter_category. intros <-.
  destruct (negb _); [|trivial]. cbn zeta.
  destruct (category_columns df); [discriminate|].
  destruct (getitem df s) as [e|col]; [trivial|]. cbn [bind].
  destruct (str_accessor col) as [e|text]; [trivial|]. cbn [bind].
  destruct (empty _); [discriminate | trivial].
Qed.

Lemma filter_category_columns (c : string) (df fdf : DataFrame) :
  filter_category df c = inr (inr fdf) -> df_columns fdf = df_columns df.
Proof.
  unfold filter_category.
  destruct (negb _); [|now intros [= <-]]. cbn zeta.
  destruct (category_columns df); [discriminate|].
  destruct (getitem df s) as [e|col]; [discriminate|]. cbn [bind].
  destruct (str_accessor col) as [e|text]; [discriminate|]. cbn [bind].
  destruct (empty _); [discriminate|].
  intros [= <-]. apply columns_select.
Qed.

(** The results of the stages of lines 53 to 66 decide the report; the
    category only names it. *)
Lemma evaluate_frame_report (cols : list string) (ec : Z) (df : DataFrame)
    (c : string) (r : results) :
  evaluate_frame cols ec df c prediction_column truth_column
  = inr (ResultsDict r) ->
  exists orig filt tp tn fp fn,
    r = report c cols ec orig filt tp tn fp fn
    /\ forall cols' ec' c',
         evaluate_frame cols' ec' df c' prediction_column truth_column
         = inr (ResultsDict (report c' cols' ec' orig filt tp tn fp fn)).
Proof.
  intros H. rewrite evaluate_frame_eq in H.
  bind_inv H. bind_inv H. bind_inv H. bind_inv H. bind_inv H. bind_inv H.
  injection H as <-.
  eexists _, _, _, _, _, _. split; [reflexivity|].
  intros cols' ec' c'. rewrite evaluate_frame_eq, E. cbn [bind].
  rewrite E0. cbn [bind]. rewrite E1, E2, E3, E4. reflexivity.
Qed.

(** X4. The category is matched whatever the case of its letters: two
    names equal once lower-cased give the same results, but for the
    field that repeats the name. *)
Theorem category_name_case_insensitive (csv : M DataFrame)
    (c1 c2 : string) (r1 : results) :
  lower c1 = lower c2 ->
  evaluate_model csv c1 prediction_column truth_column = ResultsDict r1 ->
  exists r2,
    evaluate_model csv c2 prediction_column truth_column = ResultsDict r2
    /\ category r2 = c2
    /\ columns r2 = columns r1
    /\ total_samples r2 = total_samples r1
    /\ empty_cells r2 = empty_cells r1
    /\ rows_removed r2 = rows_removed r1
    /\ accuracy r2 = accuracy r1
    /\ confusion_matrix r2 = confusion_matrix r1
    /\ precision_ppv r2 = precision_ppv r1
    /\ npv r2 = npv r1
    /\ recall r2 = recall r1
    /\ f1_score r2 = f1_score r1.
Proof.
  intros EL H.
  apply evaluate_model_run in H as (df & ec & fdf & -> & Hec & HF & HE).
  apply (filter_category_lower c1 c2) in HF; [|exact EL].
  apply evaluate_frame_report in HE
    as (orig & filt & tp & tn & fp & fn & -> & K).
  exists (report c2 (df_columns df) ec orig filt tp tn fp fn).
  split; [|repeat split].
  unfold evaluate_model, evaluate_body. cbn [bind].
  rewrite Hec. cbn [bind]. rewrite HF. cbn [bind].
  now rewrite K.
Qed.

(** X12. Evaluating one category of a table gives what evaluating the
    rows of that category alone gives under "total": the same confusion
    matrix, total, rows removed and metrics.  Only the name of the
    category and the count of empty cells, which line 39 takes on the
    whole table, can differ. *)
Theorem category_is_total_on_its_rows (df : DataFrame) (c : string)
    (r : results) :
  evaluate_model (inr df) c prediction_column truth_column = ResultsDict r ->
  exists fdf r',
    filter_category df c = inr (inr fdf)
    /\ evaluate_model (inr fdf) "total" prediction_column truth_column
       = ResultsDict r'
    /\ columns r' = columns r
    /\ total_samples r' = total_samples r
    /\ rows_removed r' = rows_removed r
    /\ accuracy r' = accuracy r
    /\ confusion_matrix r' = confusion_matrix r
    /\ precision_ppv r' = precision_ppv r
    /\ npv r' = npv r
    /\ recall r' = recall r
    /\ f1_score r' = f1_score r.
Proof.
  intros H.
  destruct (evaluate_model_results _ _ _ _ _ H)
    as (df0 & _ & fdf0 & E0 & Hp & Ht & HF0 & _).
  injection E0 as <-.
  apply evaluate_model_run in H as (df1 & ec & fdf & E1 & Hec & HF & HE).
  injection E1 as <-.
  pose proof (filter_category_columns _ _ _ HF) as EC.
  rewrite <- EC in Hp, Ht.
  destruct (count_empty_cells_present fdf _ _ Hp Ht) as [ec' Hec'].
  apply evaluate_frame_report in HE
    as (orig & filt & tp & tn & fp & fn & -> & K).
  exists fdf, (report "total" (df_columns fdf) ec' orig filt tp tn fp fn).
  split; [exact HF|]. split; [|rewrite EC; repeat split].
  unfold evaluate_model, evaluate_body. cbn [bind].
  rewrite Hec'. cbn [bind].
  change (filter_category fdf "total") with (@inr exn _ (@inr returned _ fdf)).
  cbn [bind]. now rewrite K.
Qed.

End CategoryMore.

(* ================================================================== *)
(** ** The roles of the two columns *)

Section Columns.

Context {rounding : Rounding}.

Local Open Scope Z_scope.

Variables (category_name prediction_column truth_column : string).

Lemma combine_swap {A} (a b : list A) :
  combine b a = map (fun pt => (snd pt, fst pt)) (combine a b).
Proof.
  revert b. induction a as [|x a IH]; intros [|y b]; simpl;
    try reflexivity.
  now rewrite IH.
Qed.

Lemma filter_complete_swap (l : list (pyval * pyval)) :
  filter complete_row (map swap_row l) = map swap_row (filter complete_row l).
Proof.
  induction l as [|[x y] l IH]; [reflexivity|].
  cbn [map filter]. rewrite IH.
  assert (E : complete_row (swap_row (x, y)) = complete_row (x, y))
    by (unfold complete_row, swap_row; cbn [fst snd]; apply andb_comm).
  rewrite E. now destruct (complete_row (x, y)).
Qed.

Lemma count_rows_swap (x y : string) (l : list (pyval * pyval)) :
  count_rows x y (map swap_row l) = count_rows y x l.
Proof.
  unfold count_rows. rewrite map_map. f_equal. apply map_ext.
  intros [a b]. cbn [swap_row fst snd]. apply andb_comm.
Qed.

(** The product and the sum of two rationals do not depend on the order,
    as fractions and not only as numbers. *)
Lemma Qmult_swap (p r : Q) : (p * r)%Q = (r * p)%Q.
Proof.
  unfold Qmult. f_equal; [apply Z.mul_comm | apply Pos.mul_comm].
Qed.

Lemma Qplus_swap (p r : Q) : (p + r)%Q = (r + p)%Q.
Proof.
  unfold Qplus. f_equal; [apply Z.add_comm | apply Pos.mul_comm].
Qed.

Lemma f1_metric_comm (a b : metric) : f1_metric a b = f1_metric b a.
Proof.
  unfold f1_metric. destruct a as [|p], b as [|r]; try reflexivity.
  rewrite orb_comm. destruct (_ || _); [reflexivity|].
  now rewrite (Qmult_swap p r), (Qplus_swap p r).
Qed.

(** The count of empty cells, from the two columns of the table. *)
Lemma empty_cells_formula (df : DataFrame) (r : results)
    (pred truth : Series) :
  evaluate_model (inr df) category_name prediction_column truth_column
  = ResultsDict r ->
  lookup df prediction_column = Some pred ->
  lookup df truth_column = Some truth ->
  empty_cells r = sum (map is_missing pred) + sum (map is_missing truth).
Proof.
  intros H Hp Ht.
  apply evaluate_model_run in H as (df' & ec & fdf & E & Hec & HF & HE).
  injection E as <-.
  rewrite (count_empty_cells_eq _ _ df pred truth Hp Ht) in Hec.
  injection Hec as <-.
  rewrite evaluate_frame_eq in HE.
  bind_inv HE. bind_inv HE. bind_inv HE. bind_inv HE. bind_inv HE. bind_inv HE.
  injection HE as <-. reflexivity.
Qed.

End Columns.

Section Swap.

Context {rounding : Rounding}.

Local Open Scope Z_scope.

Variables (category_name prediction_column truth_column : string).

(** The two normalised columns are the normalised cells of the two
    columns asked for, unless the truth column is the one line 53
    writes. *)
Lemma normalized_columns (p t : string) (df ndf : DataFrame)
    (a b : Series) :
  t <> "normalized_pred"%string ->
  add_normalized df p t = inr ndf ->
  lookup ndf "normalized_pred" = Some a ->
  lookup ndf "normalized_truth" = Some b ->
  exists rp rt,
    lookup df p = Some rp /\ lookup df t = Some rt
    /\ a = map normalize_label rp /\ b = map normalize_label rt.
Proof.
  intros N Hn Ha Hb.
  apply add_normalized_inv in Hn as (rp & rt & Hrp & Hrt & ->).
  rewrite lookup_setitem_other in Hrt by congruence.
  rewrite lookup_setitem_other, lookup_setitem_same in Ha by discriminate.
  rewrite lookup_setitem_same in Hb.
  injection Ha as <-. injection Hb as <-.
  exists rp, rt. auto.
Qed.

(** X11. Exchanging the prediction column and the truth column
    exchanges precision and recall and leaves the total, the rows
    removed, the count of empty cells, the accuracy and the F1 score as
    they were.  (Neither column may be called normalized_pred, the name
    line 53 writes to.) *)
Theorem swapped_columns (df : DataFrame) (r : results) :
  wf_frame df ->
  prediction_column <> "normalized_pred"%string ->
  truth_column <> "normalized_pred"%string ->
  evaluate_model (inr df) category_name prediction_column truth_column
  = ResultsDict r ->
  exists r',
    evaluate_model (inr df) category_name truth_column prediction_column
    = ResultsDict r'
    /\ total_samples r' = total_samples r
    /\ rows_removed r' = rows_removed r
    /\ empty_cells r' = empty_cells r
    /\ accuracy r' = accuracy r
    /\ precision_ppv r' = recall r
    /\ recall r' = precision_ppv r
    /\ f1_score r' = f1_score r.
Proof.
  intros W Np Nt H.
  destruct (evaluate_model_results _ _ _ _ _ H)
    as (df0 & ec0 & fdf0 & E0 & Hp & Ht & HF0 & _).
  injection E0 as <-.
  destruct (filter_category_kept _ _ _ W HF0) as [EC0 WF0].
  (* the exchanged evaluation returns *)
  assert (X : exists r', evaluate_model (inr df) category_name
                           truth_column prediction_column = ResultsDict r').
  { destruct (count_empty_cells_present df _ _ Ht Hp) as [ec' Hec'].
    destruct (evaluate_frame_returns category_name truth_column
                prediction_column (df_columns df) ec' fdf0 WF0)
      as [r' Hr']; try (rewrite EC0; assumption).
    exists r'. unfold evaluate_model, evaluate_body. cbn [bind].
    rewrite Hec'. cbn [bind]. rewrite HF0. cbn [bind]. now rewrite Hr'. }
  destruct X as [r' H'].
  exists r'. split; [exact H'|].
  pose proof Hp as Hp'. pose proof Ht as Ht'.
  apply lookup_some in Hp' as [cp Hcp], Ht' as [ct Hct].
  pose proof (empty_cells_formula _ _ _ df r cp ct H Hcp Hct) as EE.
  pose proof (empty_cells_formula _ _ _ df r' ct cp H' Hct Hcp) as EE'.
  destruct (evaluate_model_trace _ _ _ df r W H)
    as (ec & fdf & ndf & sdf & a & b & p & t & HF & WF & _ & Hn & Ha & Hb
        & La & Lb & Lp & Lt & Hc & Ls & Er).
  destruct (evaluate_model_trace _ _ _ df r' W H')
    as (ec' & fdf' & ndf' & sdf' & a' & b' & p' & t' & HF' & _ & _ & Hn' & Ha'
        & Hb' & _ & _ & _ & _ & Hc' & Ls' & Er').
  rewrite HF in HF'. injection HF' as <-.
  destruct (normalized_columns _ _ _ _ _ _ Nt Hn Ha Hb)
    as (rp & rt & Hrp & Hrt & -> & ->).
  destruct (normalized_columns _ _ _ _ _ _ Np Hn' Ha' Hb')
    as (rt' & rp' & Hrt' & Hrp' & -> & ->).
  rewrite Hrt in Hrt'. injection Hrt' as <-.
  rewrite Hrp in Hrp'. injection Hrp' as <-.
  rewrite (combine_swap (map normalize_label rp) (map normalize_label rt))
    in Hc'.
  change (fun pt : pyval * pyval => (snd pt, fst pt)) with swap_row in Hc'.
  rewrite filter_complete_swap, <- Hc in Hc'.
  rewrite Hc', length_map in Ls'. rewrite <- Ls in Ls'.
  subst r r'. rewrite Hc', !count_rows_swap, Ls'.
  cbn [report total_samples rows_removed empty_cells accuracy precision_ppv
       recall f1_score] in *.
  split; [lia|]. split; [reflexivity|]. split; [lia|].
  split; [f_equal; lia|]. split; [reflexivity|]. split; [reflexivity|].
  apply f1_metric_comm.
Qed.

(** A value that [normalize_label] returned is left as it is by
    [normalize_label]. *)
Lemma normalize_label_fixed (v w : pyval) :
  w = normalize_label v -> normalize_label w = w.
Proof.
  intros ->. unfold normalize_label at 2 3.
  destruct (is_missing v) eqn:Hm.
  - unfold normalize_label. now rewrite Hm.
  - set (s := label_str v).
    destruct (contains "safe" s && negb (contains "unsafe" s)) eqn:E1;
      [reflexivity|].
    destruct (contains "unsafe" s || in_list s unsafe_literals) eqn:E2;
      [reflexivity|].
    unfold normalize_label.
    destruct (is_missing (PStr s)); [reflexivity|].
    assert (Hs : label_str (PStr s) = s).
    { unfold label_str, s; simpl. unfold label_str. apply strip_lower_fix. }
    rewrite Hs, E1, E2. reflexivity.
Qed.

Lemma count_rows_diagonal (x y : string) (l : list (pyval * pyval)) :
  x <> y ->
  (forall pt, In pt l -> fst pt = snd pt) ->
  count_rows x y l = 0.
Proof.
  intros N D. unfold count_rows.
  induction l as [|[a b] l IH]; [reflexivity|].
  cbn [map]. rewrite sum_cons, IH by (intros pt I; apply D; now right).
  assert (E : a = b) by (apply (D (a, b)); now left). subst b.
  cbn [fst snd].
  destruct a; try reflexivity. simpl.
  destruct (String.eqb s x) eqn:Ex; [|reflexivity].
  destruct (String.eqb s y) eqn:Ey; [|reflexivity].
  apply String.eqb_eq in Ex, Ey. congruence.
Qed.

Lemma combine_diagonal {A} (a : list A) (pt : A * A) :
  In pt (combine a a) -> fst pt = snd pt.
Proof.
  induction a as [|x a IH]; simpl; [tauto|].
  intros [<-|H]; [reflexivity | now apply IH].
Qed.

(** X13. A truth column called normalized_pred is lost: line 53
    overwrites it with the normalised predictions before line 54 reads
    it, so the predictions are compared with themselves: no false
    positive and no false negative, whatever the table holds. *)
Theorem truth_named_normalized_pred (df : DataFrame) (r : results) :
  wf_frame df ->
  evaluate_model (inr df) category_name prediction_column "normalized_pred"
  = ResultsDict r ->
  exists ec original_count filtered_count tp tn,
    r = report category_name (df_columns df) ec
          original_count filtered_count tp tn 0 0.
Proof.
  intros W H.
  destruct (evaluate_model_trace _ _ _ df r W H)
    as (ec & fdf & ndf & sdf & a & b & p & t & HF & WF & _ & Hn & Ha & Hb
        & La & Lb & Lp & Lt & Hc & Ls & Er).
  apply add_normalized_inv in Hn as (rp & rt & Hrp & Hrt & ->).
  rewrite lookup_setitem_same in Hrt. injection Hrt as <-.
  rewrite lookup_setitem_other, lookup_setitem_same in Ha by discriminate.
  rewrite lookup_setitem_same in Hb.
  injection Ha as <-. injection Hb as <-.
  assert (Eb : map normalize_label (map normalize_label rp)
               = map normalize_label rp).
  { rewrite map_map. apply map_ext. intros v.
    now apply (normalize_label_fixed v). }
  rewrite Eb in Hc.
  assert (D : forall pt, In pt (combine p t) -> fst pt = snd pt).
  { intros pt I. rewrite Hc in I. apply filter_In in I as [I _].
    now apply combine_diagonal in I. }
  rewrite (count_rows_diagonal "unsafe" "safe") in Er
    by (discriminate || exact D).
  rewrite (count_rows_diagonal "safe" "unsafe") in Er
    by (discriminate || exact D).
  eexists _, _, _, _, _. exact Er.
Qed.

End Swap.

(* ================================================================== *)
(** ** The categories offered and the category filter *)

Section Listing.

Context {rounding : Rounding}.

Variables (prediction_column truth_column : string).

Lemma unique_from_In (seen : list pyval) (s : Series) (v : pyval) :
  In v (unique_from seen s) -> In v s.
Proof.
  revert seen. induction s as [|x s IH]; intros seen; simpl; [tauto|].
  destruct (existsb (pyval_eqb x) seen).
  - intros H. right. now apply (IH seen).
  - intros [H|H]; [now left | right; now apply (IH (x :: seen))].
Qed.

Lemma listed_in_column (col : Series) (v : pyval) :
  In v (unique (series_dropna col)) -> In v col.
Proof.
  intros H. apply unique_from_In in H.
  unfold series_dropna in H. now apply filter_In in H.
Qed.

Lemma text_column_dtype (col : Series) (t : string) :
  In (PStr t) col -> dtype_of col = object_.
Proof.
  intros H. unfold dtype_of.
  destruct col as [|v col]; [reflexivity|].
  assert (E : existsb is_text (v :: col) = true)
    by (apply existsb_exists; exists (PStr t); auto).
  now rewrite E.
Qed.

(** X8. A category that [main] lists can be evaluated: for a table with
    the two columns, every text that [available_categories] offers,
    other than a spelling of "total", passes the category filter of
    [evaluate_model], which then returns results and no error. *)
Theorem listed_category_evaluates (df : DataFrame) (cats : Series)
    (name : string) :
  wf_frame df ->
  In prediction_column (df_columns df) ->
  In truth_column (df_columns df) ->
  available_categories df = inr (Some cats) ->
  In (PStr name) cats ->
  lower name <> "total" ->
  exists r,
    evaluate_model (inr df) name prediction_column truth_column
    = ResultsDict r.
Proof.
  intros W Hp Ht HA HI HN.
  unfold available_categories in HA. cbn zeta in HA.
  destruct (category_columns df) as [|c rest] eqn:EC; [discriminate|].
  destruct (category_column_present df c rest EC) as [col HL].
  unfold getitem in HA. rewrite HL in HA. cbn [bind ret] in HA.
  injection HA as <-.
  apply listed_in_column in HI.
  pose proof (text_column_dtype col name HI) as HD.
  assert (HE : existsb (fun v => eq_str v (lower name)) (str_lower col)
               = true).
  { apply existsb_exists. exists (PStr (lower name)). split.
    - unfold str_lower. apply in_map_iff. exists (PStr name). auto.
    - simpl. apply String.eqb_refl. }
  destruct (count_empty_cells_present df _ _ Hp Ht) as [ec Hec].
  set (fdf := select (eq_series (str_lower col) (lower name)) df).
  assert (WF : wf_frame fdf) by now apply wf_select.
  destruct (evaluate_frame_returns name prediction_column truth_column
              (df_columns df) ec fdf WF)
    as [r Hr]; try (unfold fdf; rewrite columns_select; assumption).
  exists r. unfold evaluate_model, evaluate_body. cbn [bind].
  rewrite Hec. cbn [bind].
  rewrite filter_category_cases by assumption.
  apply String.eqb_neq in HN. rewrite HN, EC, HL, HD, HE.
  cbn [bind]. fold fdf. now rewrite Hr.
Qed.

End Listing.

(* ================================================================== *)
(** ** The display of a metric *)

Section Display.

Local Open Scope Z_scope.

Variable ties_up : Q -> bool.

Lemma append_empty_r (s : string) : (s ++ "")%string = s.
Proof. induction s as [|c s IH]; simpl; [reflexivity | now rewrite IH]. Qed.

Lemma app_not_nil (s t : string) : t <> ""%string -> (s ++ t)%string <> ""%string.
Proof. destruct s; simpl; [trivial | discriminate]. Qed.

Lemma rstrip_char_app_keep (ch : ascii) (s t : string) :
  rstrip_char ch t <> ""%string ->
  rstrip_char ch (s ++ t) = (s ++ rstrip_char ch t)%string.
Proof.
  intros H. induction s as [|c s IH]; [reflexivity|].
  cbn [append rstrip_char]. rewrite IH.
  destruct (s ++ rstrip_char ch t)%string eqn:E; [|reflexivity].
  exfalso. revert E. now apply app_not_nil.
Qed.

Lemma rstrip_char_app_drop (ch : ascii) (s t : string) :
  rstrip_char ch t = ""%string ->
  rstrip_char ch (s ++ t) = rstrip_char ch s.
Proof.
  intros H. induction s as [|c s IH]; [exact H|].
  cbn [append rstrip_char]. now rewrite IH.
Qed.

Lemma rstrip_char_absent (ch : ascii) (s : string) :
  all_chars (fun c => negb (Ascii.eqb c ch)) s = true ->
  rstrip_char ch s = s.
Proof.
  induction s as [|c s IH]; [reflexivity|].
  cbn [all_chars rstrip_char]. intros H.
  apply andb_true_iff in H as [Hc Hs]. rewrite (IH Hs).
  apply negb_true_iff in Hc. rewrite Hc. now destruct s.
Qed.

Lemma numeral_no_point (s : string) :
  all_chars numeral_char s = true ->
  all_chars (fun c => negb (Ascii.eqb c ".")) s = true.
Proof.
  induction s as [|c s IH]; [reflexivity|].
  cbn [all_chars]. intros H. apply andb_true_iff in H as [Hc Hs].
  rewrite (IH Hs), andb_true_r.
  destruct c as [[] [] [] [] [] [] [] []]; try reflexivity; discriminate.
Qed.

Lemma digit_cases (d : Z) :
  0 <= d <= 9 ->
  d = 0 \/ d = 1 \/ d = 2 \/ d = 3 \/ d = 4 \/ d = 5 \/ d = 6 \/ d = 7
  \/ d = 8 \/ d = 9.
Proof. lia. Qed.

Lemma digit_char_not_point (d : Z) :
  0 <= d <= 9 -> Ascii.eqb (digit_char d) "." = false.
Proof.
  intros H. apply digit_cases in H.
  repeat (destruct H as [->|H]; [reflexivity|]). now subst.
Qed.

Lemma digit_char_zero (d : Z) :
  0 <= d <= 9 -> Ascii.eqb (digit_char d) "0" = (d =? 0).
Proof.
  intros H. apply digit_cases in H.
  repeat (destruct H as [->|H]; [reflexivity|]). now subst.
Qed.

(** Stripping the zeros, then the point, at the end of a numeral with
    two decimals. *)
Lemma strip_zeros_point (s : string) (d1 d2 : Z) :
  all_chars numeral_char s = true ->
  0 <= d1 <= 9 -> 0 <= d2 <= 9 ->
  rstrip_char "." (rstrip_char "0"
    (s ++ String "." (String (digit_char d1) (String (digit_char d2) ""))))
  = (s ++ decimals d1 d2)%string.
Proof.
  intros Hs H1 H2.
  pose proof (digit_char_zero d1 H1) as Z1.
  pose proof (digit_char_zero d2 H2) as Z2.
  pose proof (digit_char_not_point d1 H1) as P1.
  pose proof (digit_char_not_point d2 H2) as P2.
  unfold decimals.
  destruct (d2 =? 0) eqn:E2; cbn [negb].
  - destruct (d1 =? 0) eqn:E1; cbn [negb].
    + rewrite rstrip_char_app_keep
        by (cbn [rstrip_char]; rewrite Z1, Z2; discriminate).
      cbn [rstrip_char]. rewrite Z1, Z2. cbn.
      rewrite rstrip_char_app_drop by reflexivity.
      rewrite rstrip_char_absent by now apply numeral_no_point.
      now rewrite append_empty_r.
    + rewrite rstrip_char_app_keep
        by (cbn [rstrip_char]; rewrite Z1, Z2; discriminate).
      cbn [rstrip_char]. rewrite Z1, Z2.
      rewrite rstrip_char_app_keep
        by (cbn [rstrip_char]; rewrite P1; discriminate).
      cbn [rstrip_char]. now rewrite P1.
  - rewrite rstrip_char_app_keep
      by (cbn [rstrip_char]; rewrite Z2; discriminate).
    cbn [rstrip_char]. rewrite Z2.
    rewrite rstrip_char_app_keep
      by (cbn [rstrip_char]; rewrite P2; discriminate).
    cbn [rstrip_char]. now rewrite P2.
Qed.

End Display.

Section DisplayOfResults.

Context {rounding : Rounding}.

Local Open Scope Z_scope.

Variable ties_up : Q -> bool.

Lemma append_assoc (a b c : string) :
  ((a ++ b) ++ c)%string = (a ++ (b ++ c))%string.
Proof. induction a as [|x a IH]; simpl; [reflexivity | now rewrite IH]. Qed.

Lemma all_chars_app (p : ascii -> bool) (a b : string) :
  all_chars p (a ++ b) = all_chars p a && all_chars p b.
Proof.
  induction a as [|x a IH]; simpl; [reflexivity|].
  now rewrite IH, andb_assoc.
Qed.

(** [f"{v:.2f}".rstrip('0').rstrip('.')] *)
Lemma format_2f_stripped (v : Q) :
  let c := hundredths ties_up (Qabs v) in
  rstrip_char "." (rstrip_char "0" (format_2f ties_up v))
  = ((if Qle_bool 0 v then "" else "-")
     ++ str_int (c / 100)
     ++ decimals (c mod 100 / 10) (c mod 10))%string.
Proof.
  intros c. unfold format_2f. fold c.
  rewrite <- !append_assoc.
  apply strip_zeros_point.
  - rewrite all_chars_app, str_int_numeral.
    now destruct (Qle_bool 0 v).
  - Z.div_mod_to_equations. lia.
  - Z.div_mod_to_equations. lia.
Qed.

Lemma Qabs_thousandths (k : Z) :
  0 <= k -> Qabs (k # 1000) = (k # 1000)
            /\ Qabs ((k # 1000) * 100) = ((k # 1000) * 100)%Q.
Proof.
  intros Hk. unfold Qmult, Qabs. cbn [Qnum Qden].
  now rewrite !Z.abs_eq by lia.
Qed.

(** X9. A metric that [evaluate_model] returned, [k] thousandths with
    [0 <= k <= 1000], is shown by [format_metric] with at most two
    decimals, the zeros at the end dropped and no point left at the end
    (1.0 gives "1", 0.5 gives "0.5"); as a percentage its hundredfold is
    shown in the same way, with a percent sign. *)
Theorem format_metric_display (k : Z) (as_percent : bool) :
  0 <= k <= 1000 ->
  let v := (if as_percent then (k # 1000) * 100 else (k # 1000))%Q in
  let c := hundredths ties_up v in
  format_metric ties_up (Num (k # 1000)) as_percent
  = (str_int (c / 100)
     ++ decimals (c mod 100 / 10) (c mod 10)
     ++ (if as_percent then "%" else ""))%string.
Proof.
  intros [Hk _].
  destruct (Qabs_thousandths k Hk) as [A1 A2].
  assert (P1 : Qle_bool 0 (k # 1000) = true)
    by (apply Qle_bool_iff; unfold Qle; simpl; lia).
  assert (P2 : Qle_bool 0 ((k # 1000) * 100) = true)
    by (apply Qle_bool_iff; unfold Qle; simpl; lia).
  destruct as_percent; cbn zeta; unfold format_metric;
    rewrite format_2f_stripped; cbn zeta.
  - rewrite A2, P2. cbn [append]. now rewrite !append_assoc.
  - rewrite A1, P1. cbn [append]. now rewrite append_empty_r.
Qed.

(** The hundredths of ten times a whole number of thousandths: no
    rounding takes place. *)
Lemma hundredths_of_percent (k : Z) :
  0 <= k ->
  hundredths ties_up (Qabs ((k # 1000) * 100)) = 10 * k.
Proof.
  intros Hk. unfold hundredths.
  set (y := (Qabs ((k # 1000) * 100) * 100)%Q).
  assert (Ey : (y == inject_Z (10 * k))%Q).
  { unfold y, Qeq, inject_Z. set (m := 10 * k). simpl. lia. }
  rewrite (Qfloor_comp _ _ Ey), Qfloor_Z.
  destruct (y - inject_Z (10 * k) ?= 1 # 2)%Q eqn:C.
  - apply Qeq_alt in C. rewrite Ey in C. lra.
  - reflexivity.
  - apply Qgt_alt in C. rewrite Ey in C. lra.
Qed.

(** The percentage of a whole number of thousandths. *)
Lemma percent_of_thousandths (k : Z) :
  0 <= k ->
  format_metric ties_up (Num (k # 1000)) true
  = (str_int (k / 10)
     ++ (if (k mod 10 =? 0)%Z then ""
         else String "." (String (digit_char (k mod 10)) ""))
     ++ "%")%string.
Proof.
  intros Hk. unfold format_metric. rewrite format_2f_stripped.
  cbn zeta. rewrite (hundredths_of_percent k Hk).
  assert (E0 : Qle_bool 0 ((k # 1000) * 100) = true).
  { apply Qle_bool_iff. unfold Qle. simpl. lia. }
  rewrite E0.
  assert (E1 : 10 * k / 100 = k / 10)
    by (Z.div_mod_to_equations; lia).
  assert (E2 : (10 * k) mod 100 / 10 = k mod 10)
    by (Z.div_mod_to_equations; lia).
  assert (E3 : (10 * k) mod 10 = 0)
    by (Z.div_mod_to_equations; lia).
  rewrite E1, E2, E3. unfold decimals. cbn [Z.eqb negb append].
  rewrite append_assoc. now destruct (k mod 10 =? 0).
Qed.

(** X10. The accuracy of a successful evaluation is shown as a
    percentage without any rounding: it is a whole number [k] of
    thousandths between 0 and 1000, shown as [k/10], then a point and the
    digit [k mod 10] unless that digit is 0, then the percent sign. *)
Theorem accuracy_percent_exact (csv : M DataFrame)
    (category_name prediction_column truth_column : string)
    (r : results) (x : Q) :
  evaluate_model csv category_name prediction_column truth_column
  = ResultsDict r ->
  accuracy r = Num x ->
  exists k : Z,
    0 <= k <= 1000
    /\ x = (k # 1000)
    /\ format_metric ties_up (accuracy r) true
       = (str_int (k / 10)
          ++ (if (k mod 10 =? 0)%Z then ""
              else String "." (String (digit_char (k mod 10)) ""))
          ++ "%")%string.
Proof.
  intros H Hx.
  apply evaluate_model_results in H as (df & ec & fdf & _ & _ & _ & _ & HE).
  rewrite evaluate_frame_eq in HE.
  bind_inv HE. bind_inv HE. bind_inv HE. bind_inv HE. bind_inv HE. bind_inv HE.
  injection HE as <-.
  apply tally_nonneg in E1, E2, E3, E4.
  pose proof (ratio_in_unit (z + z0) (z + z0 + z1 + z2) ltac:(lia)) as U.
  cbn [report accuracy] in *.
  unfold ratio_metric in *.
  destruct (_ >? 0); [|discriminate].
  injection Hx as <-. unfold round3 in *.
  set (k := round_nearest
              (inject_Z (z + z0) / inject_Z (z + z0 + z1 + z2) * 1000)) in *.
  exists k.
  assert (B : 0 <= k <= 1000).
  { destruct U as [U0 U1]. unfold Qle in U0, U1. simpl in U0, U1. lia. }
  split; [exact B|]. split; [reflexivity|].
  apply percent_of_thousandths. lia.
Qed.

End DisplayOfResults.

(* ================================================================== *)
(** ** Nothing to count *)

Section NothingToCount.

Context {rounding : Rounding}.

Local Open Scope Z_scope.

Variables (category_name prediction_column truth_column : string).

(** X14. When no row reaches the confusion matrix, the total being 0,
    every metric of the result is N/A: accuracy, precision, NPV, recall
    and F1. *)
Theorem no_sample_no_metric (csv : M DataFrame) (r : results) :
  evaluate_model csv category_name prediction_column truth_column
  = ResultsDict r ->
  total_samples r = 0 ->
  accuracy r = NA /\ precision_ppv r = NA /\ npv r = NA
  /\ recall r = NA /\ f1_score r = NA.
Proof.
  intros H H0.
  apply evaluate_model_results in H as (df & ec & fdf & _ & _ & _ & _ & HE).
  rewrite evaluate_frame_eq in HE.
  bind_inv HE. bind_inv HE. bind_inv HE. bind_inv HE. bind_inv HE. bind_inv HE.
  injection HE as <-.
  apply tally_nonneg in E1, E2, E3, E4.
  cbn [report total_samples] in H0.
  assert (z = 0) by lia. assert (z0 = 0) by lia.
  assert (z1 = 0) by lia. assert (z2 = 0) by lia. subst.
  repeat split.
Qed.

Lemma length_zero_nil {A} (l : list A) : length l = 0%nat -> l = [].
Proof. destruct l; [reflexivity | discriminate]. Qed.

(** X15. A table that has the two columns and no row is evaluated under
    "total" to a result, not to an error: no sample, no row removed, no
    empty cell, and every metric N/A. *)
Theorem empty_table_evaluates (df : DataFrame) :
  wf_frame df ->
  len df = 0%nat ->
  In prediction_column (df_columns df) ->
  In truth_column (df_columns df) ->
  lower category_name = "total"%string ->
  evaluate_model (inr df) category_name prediction_column truth_column
  = ResultsDict (report category_name (df_columns df) 0 0 0 0 0 0 0).
Proof.
  intros W L Hp Ht HT.
  destruct (count_empty_cells_present df _ _ Hp Ht) as [ec Hec].
  destruct (evaluate_frame_returns category_name prediction_column
              truth_column (df_columns df) ec df W Hp Ht) as [r Hr].
  assert (H : evaluate_model (inr df) category_name prediction_column
                truth_column = ResultsDict r).
  { unfold evaluate_model, evaluate_body. cbn [bind].
    rewrite Hec. cbn [bind].
    rewrite filter_category_cases by assumption.
    rewrite HT. cbn [String.eqb Ascii.eqb Bool.eqb bind]. now rewrite Hr. }
  rewrite H. f_equal.
  pose proof Hp as Hp'. pose proof Ht as Ht'.
  apply lookup_some in Hp' as [cp Hcp], Ht' as [ct Hct].
  pose proof (empty_cells_formula _ _ _ df r cp ct H Hcp Hct) as EE.
  rewrite (length_zero_nil cp), (length_zero_nil ct) in EE
    by (rewrite <- L; eapply wf_lookup; eassumption).
  destruct (evaluate_model_trace _ _ _ df r W H)
    as (ec' & fdf & ndf & sdf & a & b & p & t & HF & WF & _ & Hn & Ha & Hb
        & La & Lb & Lp & Lt & Hc & Ls & Er).
  destruct (filter_category_len _ df fdf W HF) as [_ Efdf].
  rewrite (Efdf HT) in *.
  rewrite L in La. apply length_zero_nil in La. subst a.
  cbn [combine filter] in Hc. rewrite Hc in Ls, Er. cbn [length] in Ls.
  rewrite L, Ls in Er. subst r.
  cbn [report empty_cells] in EE. cbn in EE. now rewrite EE.
Qed.

End NothingToCount.

(* ================================================================== *)
(** ** The further properties on the sample tables *)

Lemma empty_cells_counts_missing_witness :
  exists pred truth,
    lookup sample_frame "pred" = Some pred
    /\ lookup sample_frame "truth" = Some truth
    /\ empty_cells sample_category_results
       = (sum (map is_missing pred) + sum (map is_missing truth))%Z.
Proof.
  assert (E : evaluate_model (rounding := ties_down)
      (inr sample_frame) "hate" "pred" "truth"
              = ResultsDict sample_category_results)
    by (vm_compute; reflexivity).
  destruct (empty_cells_counts_missing "hate" "pred" "truth" _ _ E)
    as (df & pred & truth & Ed & Hp & Ht & Hc).
  injection Ed as <-.
  exists pred, truth. repeat split; assumption.
Defined.


Lemma rows_removed_are_blank_witness :
  exists fdf raw_pred raw_truth,
    filter_category sample_frame "total" = inr (inr fdf)
    /\ lookup fdf "pred" = Some raw_pred
    /\ lookup fdf "truth" = Some raw_truth
    /\ rows_removed sample_results
       = sum (map (fun pt => blank (fst pt) || blank (snd pt))
                  (combine raw_pred raw_truth)).
Proof.
  assert (W : wf_frame sample_frame) by (repeat constructor).
  assert (N : "truth" <> "normalized_pred") by discriminate.
  assert (E : evaluate_model (rounding := ties_down)
      (inr sample_frame) "total" "pred" "truth"
              = ResultsDict sample_results) by (vm_compute; reflexivity).
  exact (rows_removed_are_blank "total" "pred" "truth" sample_frame _ W N E).
Defined.

Lemma category_name_case_insensitive_witness :
  exists r2,
    evaluate_model (rounding := ties_down)
        (inr sample_frame) "HATE" "pred" "truth" = ResultsDict r2
    /\ total_samples r2 = total_samples sample_category_results.
Proof.
  assert (L : lower "hate" = lower "HATE") by reflexivity.
  assert (E : evaluate_model (rounding := ties_down)
      (inr sample_frame) "hate" "pred" "truth"
              = ResultsDict sample_category_results)
    by (vm_compute; reflexivity).
  destruct (category_name_case_insensitive "pred" "truth" _ "hate" "HATE"
              _ L E) as (r2 & H & _ & _ & Ht & _).
  exists r2. split; assumption.
Defined.

Lemma category_is_total_on_its_rows_witness :
  exists fdf r',
    filter_category sample_frame "hate" = inr (inr fdf)
    /\ evaluate_model (rounding := ties_down)
        (inr fdf) "total" "pred" "truth" = ResultsDict r'
    /\ accuracy r' = accuracy sample_category_results.
Proof.
  assert (E : evaluate_model (rounding := ties_down)
      (inr sample_frame) "hate" "pred" "truth"
              = ResultsDict sample_category_results)
    by (vm_compute; reflexivity).
  destruct (category_is_total_on_its_rows "pred" "truth" sample_frame "hate"
              _ E) as (fdf & r' & HF & H & _ & _ & _ & Ha & _).
  exists fdf, r'. repeat split; assumption.
Defined.

Lemma swapped_columns_witness :
  exists r',
    evaluate_model (rounding := ties_down)
        (inr sample_frame) "total" "truth" "pred" = ResultsDict r'
    /\ precision_ppv r' = recall sample_results
    /\ recall r' = precision_ppv sample_results.
Proof.
  assert (W : wf_frame sample_frame) by (repeat constructor).
  assert (Np : "pred" <> "normalized_pred") by discriminate.
  assert (Nt : "truth" <> "normalized_pred") by discriminate.
  assert (E : evaluate_model (rounding := ties_down)
      (inr sample_frame) "total" "pred" "truth"
              = ResultsDict sample_results) by (vm_compute; reflexivity).
  destruct (swapped_columns "total" "pred" "truth" sample_frame _ W Np Nt E)
    as (r' & H & _ & _ & _ & _ & Hp & Hr & _).
  exists r'. repeat split; assumption.
Defined.

Lemma truth_named_normalized_pred_witness :
  exists ec original_count filtered_count tp tn,
    collision_results
    = report (rounding := ties_down) "total" ["pred"; "normalized_pred"] ec
        original_count filtered_count tp tn 0 0.
Proof.
  assert (W : wf_frame collision_frame) by (repeat constructor).
  assert (E : evaluate_model (rounding := ties_down)
      (inr collision_frame) "total" "pred"
                "normalized_pred" = ResultsDict collision_results)
    by (vm_compute; reflexivity).
  exact (truth_named_normalized_pred "total" "pred" collision_frame _ W E).
Defined.

Lemma listed_category_evaluates_witness :
  exists r,
    evaluate_model (rounding := ties_down)
        (inr sample_frame) "Spam" "pred" "truth" = ResultsDict r.
Proof.
  assert (W : wf_frame sample_frame) by (repeat constructor).
  apply (listed_category_evaluates "pred" "truth" sample_frame
           [PStr "Hate"; PStr "hate"; PStr "Spam"; PStr "HATE"] "Spam" W).
  - simpl. auto.
  - simpl. auto.
  - reflexivity.
  - simpl. auto.
  - discriminate.
Defined.

Lemma accuracy_percent_exact_witness :
  exists k : Z,
    (0 <= k <= 1000)%Z
    /\ format_metric (fun _ => true) (accuracy sample_results) true
       = (str_int (k / 10)
          ++ (if (k mod 10 =? 0)%Z then ""
              else String "." (String (digit_char (k mod 10)) ""))
          ++ "%")%string.
Proof.
  assert (E : evaluate_model (rounding := ties_down)
      (inr sample_frame) "total" "pred" "truth"
              = ResultsDict sample_results) by (vm_compute; reflexivity).
  destruct (accuracy_percent_exact (fun _ => true) _ _ _ _ _ (600 # 1000) E
              eq_refl) as (k & B & _ & H).
  exists k. split; assumption.
Defined.

Lemma format_metric_display_witness :
  format_metric (fun _ => true) (Num (667 # 1000)) false = "0.67"
  /\ format_metric (fun _ => true) (Num (1000 # 1000)) false = "1"
  /\ format_metric (fun _ => true) (Num (667 # 1000)) true = "66.7%".
Proof.
  split; [|split].
  - apply (format_metric_display (fun _ => true) 667 false). lia.
  - apply (format_metric_display (fun _ => true) 1000 false). lia.
  - apply (format_metric_display (fun _ => true) 667 true). lia.
Defined.

(** ** Sample runs of [format_metric] *)

(** The accuracy, the precision and the F1 score of [sample_frame], as
    [print_results] shows them. *)
Example display_sample :
  format_metric (fun _ => true) (accuracy sample_results) true = "60%"
  /\ format_metric (fun _ => true) (precision_ppv sample_results) false
     = "0.67"
  /\ format_metric (fun _ => true) NA false = "N/A".
Proof. repeat split. Qed.

Lemma no_sample_no_metric_witness :
  f1_score (report (rounding := ties_down) "total" ["pred"; "truth"]
              3 3 0 0 0 0 0) = NA.
Proof.
  assert (E : evaluate_model (rounding := ties_down)
                (inr empty_predictions) "total" "pred" "truth"
              = ResultsDict (report (rounding := ties_down)
                               "total" ["pred"; "truth"] 3 3 0 0 0 0 0))
    by (vm_compute; reflexivity).
  exact (proj2 (proj2 (proj2 (proj2
           (no_sample_no_metric "total" "pred" "truth" _ _ E eq_refl))))).
Defined.

Lemma empty_table_evaluates_witness :
  evaluate_model (rounding := ties_down)
      (inr [("pred", []); ("truth", [])]) "Total" "pred" "truth"
  = ResultsDict (report (rounding := ties_down)
                   "Total" ["pred"; "truth"] 0 0 0 0 0 0 0).
Proof.
  apply (empty_table_evaluates (rounding := ties_down)
           "Total" "pred" "truth"
           [("pred", []); ("truth", [])]).
  - repeat constructor.
  - reflexivity.
  - simpl. auto.
  - simpl. auto.
  - reflexivity.
Defined.
